(** * bashistdb: the history store and the encrypted synchronisation protocol

    A shallow embedding of [database/database.go] (package [database]) and of
    the [network] package of bashistdb, with the properties of its
    specification stated and settled over the embedding.

    Conventions.
    - A Go [string] and a Go [[]byte] are both byte sequences; both are
      modelled by [string] (a list of 8-bit characters).  A [nil] slice and an
      empty slice are the same value here, the empty string.
    - A Go [int] counter is modelled by [Z].  The counters of this program
      count lines of an in-memory buffer, so they never reach 2^63.
    - A Go [(value, error)] result is a [result], or a pair with an
      [option error] where the code returns both.
    - The SQLite database behind a [*sql.DB] handle is a record of its tables;
      a statement is a function on that record; a transaction works on a copy
      that [Commit] installs and [Rollback] (or never committing) drops.
    - Logging is not modelled; [log.Fatalln] ends the process and is an
      explicit outcome. *)

From Stdlib Require Import String Ascii List ZArith Lia Bool DecimalString.
Import ListNotations.

Local Open Scope string_scope.
Local Open Scope Z_scope.

(** ** Errors *)

(** [sqlite3.ErrNoExtended]: the extended result codes the code looks at. *)
Inductive ErrNoExtended :=
  | ErrConstraintPrimaryKey
  | ErrConstraintOther.

(** A Go [error] value: [io.EOF], a [sqlite3.Error] with its extended code, or
    any other error, kept as its message ([errors.New], library errors). *)
Inductive error :=
  | io_EOF
  | sqlite3_Error (ExtendedCode : ErrNoExtended)
  | errorString (msg : string).

Inductive result (A : Type) :=
  | Ok (a : A)
  | Err (e : error).
Arguments Ok {A} a.
Arguments Err {A} e.

(** [err.Error()] *)
Definition Error (e : error) : string :=
  match e with
  | io_EOF => "EOF"
  | sqlite3_Error ErrConstraintPrimaryKey => "UNIQUE constraint failed"
  | sqlite3_Error ErrConstraintOther => "constraint failed"
  | errorString msg => msg
  end.

(** ** Strings *)

Definition newline : ascii := "010"%char.
Definition nl : string := String newline "".

(** [strings.TrimSuffix(s, suffix)] *)
Fixpoint TrimSuffix (s suffix : string) : string :=
  match s with
  | "" => ""
  | String c s' => if String.eqb s suffix then "" else String c (TrimSuffix s' suffix)
  end.

(** [fmt.Sprintf("%d", n)] *)
Definition fmt_d (n : Z) : string := NilZero.string_of_int (Z.to_int n).

(** ** bufio.Reader over an in-memory buffer

    The reader is the sequence of bytes not yet read.  [ReadString] returns
    the bytes up to and including the first [delim]; when the input ends
    before a [delim] it returns what it read together with [io.EOF]. *)

Definition Reader := string.

Fixpoint ReadString (r : Reader) (delim : ascii) : string * option error * Reader :=
  match r with
  | "" => ("", Some io_EOF, "")
  | String c r' =>
      if Ascii.eqb c delim then (String c "", None, r')
      else let '(line, err, rest) := ReadString r' delim in (String c line, err, rest)
  end.

(** ** Regular expressions

    Go's [regexp] matches leftmost-first with greedy repetition, the
    preference order of a backtracking matcher.  A pattern is a matcher in
    continuation-passing style: it consumes a prefix of the input and hands
    the rest to its continuation, trying its alternatives in preference order
    until the continuation succeeds.  The continuation returns the submatches
    captured after this point and the input left after the whole match. *)

Module Regexp.

Definition K := string -> option (list string * string).
Definition regexp := K -> K.

(** the end of the pattern: the match succeeds here *)
Definition accept : K := fun s => Some ([], s).

(** [c*] for a character class [c], greedy *)
Fixpoint star (cls : ascii -> bool) (k : K) (s : string) : option (list string * string) :=
  match s with
  | String c s' =>
      if cls c then
        match star cls k s' with
        | Some r => Some r
        | None => k s
        end
      else k s
  | "" => k s
  end.

(** [c+], greedy *)
Definition plus (cls : ascii -> bool) (k : K) (s : string) : option (list string * string) :=
  match s with
  | String c s' => if cls c then star cls k s' else None
  | "" => None
  end.

(** [c?], greedy *)
Definition opt (cls : ascii -> bool) (k : K) (s : string) : option (list string * string) :=
  match s with
  | String c s' =>
      if cls c then
        match k s' with
        | Some r => Some r
        | None => k s
        end
      else k s
  | "" => k s
  end.

(** [c{n,n}] *)
Fixpoint rep (n : nat) (cls : ascii -> bool) (k : K) (s : string) : option (list string * string) :=
  match n with
  | O => k s
  | S n' =>
      match s with
      | String c s' => if cls c then rep n' cls k s' else None
      | "" => None
      end
  end.

(** the text consumed between input [s] and what is left of it, [rest] *)
Definition consumed (s rest : string) : string :=
  substring 0 (String.length s - String.length rest) s.

(** [( re )]: a capturing group *)
Definition group (re : regexp) (k : K) (s : string) : option (list string * string) :=
  re (fun s' =>
        match k s' with
        | Some (gs, rest) => Some (consumed s s' :: gs, rest)
        | None => None
        end) s.

(** [re.FindStringSubmatch(s)] for a pattern anchored with [^]: the whole
    match followed by the submatches, or [nil] when there is no match. *)
Definition FindStringSubmatch (re : regexp) (s : string) : list string :=
  match re accept s with
  | Some (gs, rest) => consumed s rest :: gs
  | None => []
  end.

(** character classes *)
Definition lit (a : ascii) : ascii -> bool := Ascii.eqb a.
Definition digit (c : ascii) : bool :=
  let n := nat_of_ascii c in (Nat.leb 48 n && Nat.leb n 57)%bool.
(** [[0-9T:+-]] *)
Definition stamp (c : ascii) : bool :=
  (digit c || lit "T" c || lit ":" c || lit "+" c || lit "-" c)%bool.
(** [.]: any character but a newline *)
Definition dot (c : ascii) : bool := negb (Ascii.eqb c newline).

End Regexp.

(** [parseLine] of [AddFromBuffer].  The source pattern, piece by piece: the
    anchor [^], [ *], [[0-9]+], [\*?], [ *], a capturing group around
    [[0-9T:+-]{24,24}], [ *], and a capturing group around [.*]. *)
Definition parseLine : Regexp.regexp := fun k =>
  Regexp.star (Regexp.lit " ")
    (Regexp.plus Regexp.digit
       (Regexp.opt (Regexp.lit "*")
          (Regexp.star (Regexp.lit " ")
             (Regexp.group (Regexp.rep 24 Regexp.stamp)
                (Regexp.star (Regexp.lit " ")
                   (Regexp.group (Regexp.star Regexp.dot) k)))))).


(** ** time.Parse

    [time.Time] as the fields the layout [RFC3339alt] carries.  The zone
    offset is in seconds east of UTC. *)

Record Time := {
  year : Z; month : Z; day : Z;
  hour : Z; minute : Z; second : Z;
  zoneOffset : Z
}.

Definition Time_eqb (a b : Time) : bool :=
  (year a =? year b) && (month a =? month b) && (day a =? day b) &&
  (hour a =? hour b) && (minute a =? minute b) && (second a =? second b) &&
  (zoneOffset a =? zoneOffset b).

(** Golang's RFC3339 does not comply with all RFC3339 representations *)
Definition RFC3339alt : string := "2006-01-02T15:04:05-0700".

Definition digitVal (c : ascii) : option Z :=
  if Regexp.digit c then Some (Z.of_nat (nat_of_ascii c) - 48) else None.

Definition atoi2 (a b : ascii) : option Z :=
  match digitVal a, digitVal b with
  | Some x, Some y => Some (10 * x + y)
  | _, _ => None
  end.

Definition atoi4 (a b c d : ascii) : option Z :=
  match atoi2 a b, atoi2 c d with
  | Some x, Some y => Some (100 * x + y)
  | _, _ => None
  end.

Definition isLeap (y : Z) : bool :=
  (y mod 4 =? 0) && (negb (y mod 100 =? 0) || (y mod 400 =? 0)).

Definition daysIn (m y : Z) : Z :=
  if m =? 2 then (if isLeap y then 29 else 28)
  else if (m =? 4) || (m =? 6) || (m =? 9) || (m =? 11) then 30
  else 31.

Definition in_range (lo x hi : Z) : bool := (lo <=? x) && (x <=? hi).

Definition parse_error (value : string) : error :=
  errorString ("parsing time " ++ value).

(** [time.Parse(layout, value)] at the one layout the program uses, for the
    values [parseLine] hands it (24 bytes): four digits of year, two each of
    month, day, hour, minute and second with the layout's separators between
    them, then a sign and four digits of zone offset; month, day (for the
    month and year), hour, minute and second must be in range.  The statements
    about [AddFromBuffer] below use no more of it than whether it returns a
    time or an error; the samples stay clear of the dates on which releases
    of Go differ (day 31 of a short month, zone offsets beyond a day). *)
Definition time_Parse (layout value : string) : result Time :=
  if negb (String.eqb layout RFC3339alt) then Err (errorString "layout not modelled")
  else
    match list_ascii_of_string value with
    | [y1; y2; y3; y4; d1; m1; m2; d2; a1; a2; t;
       h1; h2; c1; n1; n2; c2; s1; s2; sg; z1; z2; z3; z4] =>
        match atoi4 y1 y2 y3 y4, atoi2 m1 m2, atoi2 a1 a2,
              atoi2 h1 h2, atoi2 n1 n2, atoi2 s1 s2, atoi2 z1 z2, atoi2 z3 z4 with
        | Some yr, Some mo, Some dy, Some hr, Some mi, Some se, Some zh, Some zm =>
            if Ascii.eqb d1 "-" && Ascii.eqb d2 "-" && Ascii.eqb t "T" &&
               Ascii.eqb c1 ":" && Ascii.eqb c2 ":" &&
               (Ascii.eqb sg "+" || Ascii.eqb sg "-") &&
               in_range 1 mo 12 && in_range 1 dy (daysIn mo yr) &&
               in_range 0 hr 23 && in_range 0 mi 59 && in_range 0 se 59
            then
              let off := (zh * 60 + zm) * 60 in
              Ok {| year := yr; month := mo; day := dy;
                    hour := hr; minute := mi; second := se;
                    zoneOffset := if Ascii.eqb sg "-" then - off else off |}
            else Err (parse_error value)
        | _, _, _, _, _, _, _, _ => Err (parse_error value)
        end
    | _ => Err (parse_error value)
    end.

(** ** The database

    The tables of the SQLite file.  [history] and [admin] exist in every
    store; [connlog], [rlookup], the scratch table [connlog_new] and the view
    [connections] exist or not ([None]), which is what [CREATE] and [DROP]
    depend on. *)

(** a row of [history]; its primary key is (user, command, datetime) *)
Record HistoryRow := {
  h_user : string;
  h_host : string;
  h_command : string;
  h_datetime : Time
}.

(** Modelled from the spec: a row of [connlog].  The version-2 table has the
    columns [datetime] (primary key) and [remote]; the declaration of the
    version-1 table is not in the source, the spec says it embedded a
    reverse-lookup column, which is [c_embedded] here ([None] in a version-2
    table). *)
Record ConnRow := {
  c_datetime : string;
  c_remote : string;
  c_embedded : option string
}.

(** a row of [rlookup]; its primary key is [ip] *)
Record LookupRow := {
  r_ip : string;
  r_reverse : string
}.

(** the two definitions of the view [connections] found in the source *)
Inductive ViewDef :=
  | JOIN_rlookup        (* connlog AS c JOIN rlookup AS r ON c.remote = r.ip *)
  | LEFT_JOIN_rlookup.  (* connlog AS c LEFT JOIN rlookup AS r ON c.remote = r.ip *)

Record Database := {
  history : list HistoryRow;
  admin : list (string * string);
  connlog : option (list ConnRow);
  connlog_new : option (list ConnRow);
  rlookup : option (list LookupRow);
  connections : option ViewDef
}.

Definition set_history (d : Database) (h : list HistoryRow) : Database :=
  {| history := h; admin := admin d; connlog := connlog d;
     connlog_new := connlog_new d; rlookup := rlookup d;
     connections := connections d |}.

(** two rows of [history] with the same primary key: the same user, the
    same command, and the same timestamp as the driver stores it, with its
    zone offset *)
Definition same_key (a b : HistoryRow) : bool :=
  String.eqb (h_user a) (h_user b) && String.eqb (h_command a) (h_command b) &&
  Time_eqb (h_datetime a) (h_datetime b).

(** The prepared statement [insert],
    INSERT INTO history(user, host, command, datetime) VALUES(?, ?, ?, ?),
    run on the table of a transaction. *)
Definition insert_Exec (tbl : list HistoryRow) (user host command : string) (time : Time)
  : result (list HistoryRow) :=
  let row := {| h_user := user; h_host := host; h_command := command; h_datetime := time |} in
  if existsb (same_key row) tbl then Err (sqlite3_Error ErrConstraintPrimaryKey)
  else Ok (tbl ++ [row])%list.

(** ** AddFromBuffer *)

(** [fmt.Sprintf("Processed %d entries, successful %d, failed %d.", ...)] *)
Definition Sprintf_stats (total successful failed : Z) : string :=
  "Processed " ++ fmt_d total ++ " entries, successful " ++ fmt_d successful ++
  ", failed " ++ fmt_d failed ++ ".".

(** What one turn of the loop does once a line is read: go on with the
    transaction's table and the failed counter, or return an error (in every
    such return the transaction is dropped, by [tx.Rollback()] or by never
    being committed). *)
Inductive turn :=
  | Continue (tx : list HistoryRow) (failed : Z)
  | Return (e : error).

Definition AddFromBuffer_turn (user host historyLine : string)
    (tx : list HistoryRow) (failed : Z) : turn :=
  let args := Regexp.FindStringSubmatch parseLine historyLine in
  if negb (Nat.eqb (List.length args) 3) then Continue tx (failed + 1)
  else
    match time_Parse RFC3339alt (nth 1 args "") with
    | Err err => Return err
    | Ok time =>
        match insert_Exec tx user host (TrimSuffix (nth 2 args "") nl) time with
        | Ok tx' => Continue tx' failed
        | Err (sqlite3_Error ErrConstraintPrimaryKey) => Continue tx (failed + 1)
        | Err err => Return err
        end
    end.

(** The [for] loop.  [fuel] bounds the number of turns; [None] is running out
    of it.  [Ok] is the [break] at [io.EOF], with the state the code after the
    loop sees. *)
Fixpoint AddFromBuffer_loop (fuel : nat) (r : Reader) (user host : string)
    (tx : list HistoryRow) (total failed : Z)
  : option (result (list HistoryRow * Z * Z)) :=
  match fuel with
  | O => None
  | S fuel' =>
      let '(historyLine, err, r') := ReadString r newline in
      let total := total + 1 in
      match err with
      | Some io_EOF => Some (Ok (tx, total, failed))
      | Some err => Some (Err (errorString ("Error while reading stdin: " ++ Error err)))
      | None =>
          match AddFromBuffer_turn user host historyLine tx failed with
          | Continue tx' failed' => AddFromBuffer_loop fuel' r' user host tx' total failed'
          | Return e => Some (Err e)
          end
      end
  end.

(** [d.AddFromBuffer(r, user, host)]: the stats sentence, the error and the
    database afterwards.  Every turn but the last consumes a byte, so one
    more turn than there are bytes is enough fuel ([AddFromBuffer_total]). *)
Definition AddFromBuffer (d : Database) (r : Reader) (user host : string)
  : option (string * option error * Database) :=
  match AddFromBuffer_loop (S (String.length r)) r user host (history d) 0 0 with
  | None => None
  | Some (Err e) => Some ("", Some e, d)
  | Some (Ok (tx, total, failed)) =>
      let d' := set_history d tx in
      let total := total - 1 in
      Some (Sprintf_stats total (total - failed) failed, None, d')
  end.


(** ** Lines of a buffer

    The vocabulary the statements about [AddFromBuffer] use. *)

(** the newline-terminated lines of a buffer, each with its newline; bytes
    after the last newline belong to no line *)
Fixpoint lines_of (r : string) : list string :=
  match r with
  | "" => []
  | String c r' =>
      if Ascii.eqb c newline then String c "" :: lines_of r'
      else match lines_of r' with
           | [] => []
           | l :: ls => String c l :: ls
           end
  end.

Fixpoint count_newlines (r : string) : nat :=
  match r with
  | "" => O
  | String c r' => if Ascii.eqb c newline then S (count_newlines r') else count_newlines r'
  end.

(** a buffer that is empty or ends with a newline *)
Fixpoint complete (r : string) : bool :=
  match r with
  | "" => true
  | String c "" => Ascii.eqb c newline
  | String c r' => complete r'
  end.

(** one newline-terminated line: no newline but the last byte *)
Definition is_line (l : string) : bool :=
  Nat.eqb (count_newlines l) 1 && complete l.

(** the line matches [parseLine] *)
Definition matches (l : string) : bool :=
  Nat.eqb (List.length (Regexp.FindStringSubmatch parseLine l)) 3.

(** the timestamp field of a matching line, parsed *)
Definition stamp_of (l : string) : result Time :=
  time_Parse RFC3339alt (nth 1 (Regexp.FindStringSubmatch parseLine l) "").

(** the record a line stands for, when it matches and its timestamp parses *)
Definition record_of (user host l : string) : option HistoryRow :=
  if matches l then
    match stamp_of l with
    | Ok time =>
        Some {| h_user := user; h_host := host;
                h_command := TrimSuffix (nth 2 (Regexp.FindStringSubmatch parseLine l) "") nl;
                h_datetime := time |}
    | Err _ => None
    end
  else None.

(** a line the import can take: it does not match, or it stands for a record *)
Definition tolerated (l : string) : bool :=
  negb (matches l) || (match stamp_of l with Ok _ => true | Err _ => false end).

(** a well-formed line: it matches and its timestamp parses *)
Definition well_formed (l : string) : bool :=
  matches l && (match stamp_of l with Ok _ => true | Err _ => false end).

Fixpoint records_of (user host : string) (ls : list string) : list HistoryRow :=
  match ls with
  | [] => []
  | l :: ls' =>
      match record_of user host l with
      | Some row => row :: records_of user host ls'
      | None => records_of user host ls'
      end
  end.

(** no two rows of the list have the same primary key *)
Fixpoint distinct_keys (rows : list HistoryRow) : bool :=
  match rows with
  | [] => true
  | row :: rows' => negb (existsb (same_key row) rows') && distinct_keys rows'
  end.

(** the turns of the loop over the lines of the buffer, without the reader *)
Fixpoint import_lines (user host : string) (ls : list string)
    (tx : list HistoryRow) (failed : Z) : result (list HistoryRow * Z) :=
  match ls with
  | [] => Ok (tx, failed)
  | l :: ls' =>
      match AddFromBuffer_turn user host l tx failed with
      | Continue tx' failed' => import_lines user host ls' tx' failed'
      | Return e => Err e
      end
  end.

(** ** initDB and migrate *)

(** VERSION is the database's schema supported version. *)
Definition VERSION : string := "2".

(** a small error monad for sequences of statements *)
Definition bind {A B : Type} (r : result A) (f : A -> result B) : result B :=
  match r with
  | Ok a => f a
  | Err e => Err e
  end.

Notation "x <- r ;; k" := (bind r (fun x => k))
  (at level 61, r at next level, right associativity).

(** [initDB(db)].  [New] calls it on the empty file it has just created, where
    every [CREATE] succeeds; this is the database the two [Exec] leave there:
    the four tables, empty but for the version row of [admin], and the view
    [connections], an inner [JOIN]. *)
Definition initDB : Database :=
  {| history := [];
     admin := [("version", VERSION)];
     connlog := Some [];
     connlog_new := None;
     rlookup := Some [];
     connections := Some JOIN_rlookup |}.

Definition lower (c : ascii) : ascii :=
  let n := nat_of_ascii c in
  if (Nat.leb 65 n && Nat.leb n 90)%bool then ascii_of_nat (n + 32) else c.

Fixpoint lowercase (s : string) : string :=
  match s with
  | "" => ""
  | String c s' => String (lower c) (lowercase s')
  end.

(** SQLite's [value LIKE pattern] for a pattern without wildcards: equality
    that ignores the case of ASCII letters *)
Definition LIKE (value pattern : string) : bool :=
  String.eqb (lowercase value) (lowercase pattern).

Definition sql_ErrNoRows : error := errorString "sql: no rows in result set".

(** SELECT value FROM admin WHERE key LIKE "version", scanned into a string:
    the first such row, [sql.ErrNoRows] without one *)
Definition select_version (d : Database) : result string :=
  match find (fun kv => LIKE (fst kv) "version") (admin d) with
  | Some (_, value) => Ok value
  | None => Err sql_ErrNoRows
  end.

(** UPDATE admin SET value=? WHERE key LIKE 'version' *)
Definition update_version (value : string) (d : Database) : result Database :=
  Ok {| history := history d;
        admin := map (fun kv => if LIKE (fst kv) "version" then (fst kv, value) else kv) (admin d);
        connlog := connlog d; connlog_new := connlog_new d;
        rlookup := rlookup d; connections := connections d |}.

Definition no_such_table (name : string) : error :=
  errorString ("no such table: " ++ name).
Definition already_exists (name : string) : error :=
  errorString ("table " ++ name ++ " already exists").

(** CREATE TABLE connlog_new(datetime TEXT PRIMARY KEY, remote TEXT) *)
Definition create_connlog_new (d : Database) : result Database :=
  match connlog_new d with
  | Some _ => Err (already_exists "connlog_new")
  | None =>
      Ok {| history := history d; admin := admin d; connlog := connlog d;
            connlog_new := Some []; rlookup := rlookup d; connections := connections d |}
  end.

(** inserting (datetime, remote) rows into a table whose primary key is
    [datetime] *)
Fixpoint insert_conn_rows (src dst : list ConnRow) : result (list ConnRow) :=
  match src with
  | [] => Ok dst
  | row :: src' =>
      if existsb (fun x => String.eqb (c_datetime x) (c_datetime row)) dst
      then Err (sqlite3_Error ErrConstraintPrimaryKey)
      else insert_conn_rows src'
             (dst ++ [{| c_datetime := c_datetime row; c_remote := c_remote row;
                         c_embedded := None |}])%list
  end.

(** INSERT INTO connlog_new SELECT datetime, remote FROM connlog *)
Definition copy_connlog (d : Database) : result Database :=
  match connlog d, connlog_new d with
  | None, _ => Err (no_such_table "connlog")
  | _, None => Err (no_such_table "connlog_new")
  | Some src, Some dst =>
      rows <- insert_conn_rows src dst ;;
      Ok {| history := history d; admin := admin d; connlog := connlog d;
            connlog_new := Some rows; rlookup := rlookup d; connections := connections d |}
  end.

(** DROP TABLE connlog *)
Definition drop_connlog (d : Database) : result Database :=
  match connlog d with
  | None => Err (no_such_table "connlog")
  | Some _ =>
      Ok {| history := history d; admin := admin d; connlog := None;
            connlog_new := connlog_new d; rlookup := rlookup d; connections := connections d |}
  end.

(** ALTER TABLE connlog_new RENAME TO 'connlog' *)
Definition rename_connlog_new (d : Database) : result Database :=
  match connlog_new d, connlog d with
  | None, _ => Err (no_such_table "connlog_new")
  | Some _, Some _ => Err (already_exists "connlog")
  | Some rows, None =>
      Ok {| history := history d; admin := admin d; connlog := Some rows;
            connlog_new := None; rlookup := rlookup d; connections := connections d |}
  end.

(** CREATE TABLE rlookup (ip TEXT PRIMARY KEY, reverse TEXT) *)
Definition create_rlookup (d : Database) : result Database :=
  match rlookup d with
  | Some _ => Err (already_exists "rlookup")
  | None =>
      Ok {| history := history d; admin := admin d; connlog := connlog d;
            connlog_new := connlog_new d; rlookup := Some []; connections := connections d |}
  end.

(** CREATE VIEW connections AS ... *)
Definition create_view (v : ViewDef) (d : Database) : result Database :=
  match connections d with
  | Some _ => Err (already_exists "connections")
  | None =>
      Ok {| history := history d; admin := admin d; connlog := connlog d;
            connlog_new := connlog_new d; rlookup := rlookup d; connections := Some v |}
  end.

(** the six statements of [migrate]'s [stmt], in order; the first that fails
    ends the [Exec] with its error *)
Definition migrate_stmt (tx : Database) : result Database :=
  tx <- create_connlog_new tx ;;
  tx <- copy_connlog tx ;;
  tx <- drop_connlog tx ;;
  tx <- rename_connlog_new tx ;;
  tx <- create_rlookup tx ;;
  create_view LEFT_JOIN_rlookup tx.

(** [migrate(d)]: the database afterwards and the error returned.  Every
    [return err] of case "1" leaves the transaction uncommitted, so the
    database keeps the state it had. *)
Definition migrate (d : Database) : Database * option error :=
  match select_version d with
  | Err err => (d, Some err)
  | Ok version =>
      if String.eqb version "1" then
        match (tx <- migrate_stmt d ;; update_version VERSION tx) with
        | Err err => (d, Some err)
        | Ok tx => (tx, None)
        end
      else
        (* case "2" logs and leaves the switch, as does any other version *)
        if negb (String.eqb version VERSION) then
          (d, Some (errorString
             "Database version different than code version but couldn't fix it."))
        else (d, None)
  end.

(** ** The view connections *)

(** a row of [connections]: datetime, remote and reverse, which is NULL
    ([None]) for a connlog row a LEFT JOIN pairs with nothing *)
Definition ViewRow : Type := string * string * option string.

Definition lookups (remote : string) (r : list LookupRow) : list LookupRow :=
  filter (fun x => String.eqb remote (r_ip x)) r.

(** SELECT datetime, remote, reverse FROM connlog AS c [LEFT] JOIN rlookup AS r
    ON c.remote = r.ip *)
Definition eval_view (v : ViewDef) (c : list ConnRow) (r : list LookupRow) : list ViewRow :=
  flat_map
    (fun row =>
       match lookups (c_remote row) r, v with
       | [], LEFT_JOIN_rlookup => [(c_datetime row, c_remote row, None)]
       | found, _ => map (fun x => (c_datetime row, c_remote row, Some (r_reverse x))) found
       end) c.

(** SELECT * FROM connections *)
Definition select_connections (d : Database) : result (list ViewRow) :=
  match connections d, connlog d, rlookup d with
  | Some v, Some c, Some r => Ok (eval_view v c r)
  | None, _, _ => Err (no_such_table "connections")
  | _, None, _ => Err (no_such_table "connlog")
  | _, _, None => Err (no_such_table "rlookup")
  end.

(** ** Sample inputs

    History text as the [history] builtin prints it with
    HISTTIMEFORMAT="%FT%T%z ". *)

Module Sample.

Definition ls_line : string := "    1  2015-03-01T10:00:00+0200 ls -la" ++ nl.
Definition cd_line : string := "    2  2015-03-01T10:00:07+0200 cd /tmp" ++ nl.
Definition vi_line : string := "    3* 2015-03-01T10:01:30+0200 vi notes.txt" ++ nl.
(** the command of line 1 again, run within the same second *)
Definition ls_again : string := "    4  2015-03-01T10:00:00+0200 ls -la" ++ nl.

(** matches [parseLine]; there is no month 13 *)
Definition bad_stamp : string := "    5  2015-13-01T10:00:00+0200 make".
Definition bad_stamp_line : string := bad_stamp ++ nl.

(** do not match [parseLine] *)
Definition blank_line : string := nl.
Definition no_stamp_line : string := "    6  make install" ++ nl.
Definition continuation_line : string := "  done" ++ nl.

Definition three_lines : string := ls_line ++ cd_line ++ vi_line.
Definition repeated : string := ls_line ++ ls_again.

(** a command of minute [m] of an hour *)
Definition at_minute (m : string) : string :=
  "   10  2015-03-02T09:" ++ m ++ ":00+0200 make test" ++ nl.

(** ten well-formed lines and three that do not match *)
Definition thirteen : list string :=
  [ls_line; blank_line; cd_line; vi_line; no_stamp_line; at_minute "01";
   at_minute "02"; at_minute "03"; continuation_line; at_minute "04";
   at_minute "05"; at_minute "06"; at_minute "07"].

(** the same, but the last well-formed line repeats the first *)
Definition thirteen_repeat : list string :=
  [ls_line; blank_line; cd_line; vi_line; no_stamp_line; at_minute "01";
   at_minute "02"; at_minute "03"; continuation_line; at_minute "04";
   at_minute "05"; at_minute "06"; ls_again].

Definition ls_row : HistoryRow :=
  {| h_user := "alice"; h_host := "laptop"; h_command := "ls -la";
     h_datetime := {| year := 2015; month := 3; day := 1; hour := 10; minute := 0;
                      second := 0; zoneOffset := 7200 |} |}.

End Sample.

(** [d.LogConn(remote)], the part that runs before it returns:
    INSERT INTO connlog VALUES (?, ?) with the time [t] and the address [ip].
    Its error is not returned, so a failed insert leaves the database as it
    was.  The reverse lookup runs in a goroutine and is best effort; it is not
    modelled, a store it did not reach has no [rlookup] row for [ip]. *)
Definition LogConn (d : Database) (t ip : string) : Database :=
  match connlog d with
  | None => d
  | Some rows =>
      if existsb (fun x => String.eqb (c_datetime x) t) rows then d
      else
        {| history := history d; admin := admin d;
           connlog := Some (rows ++ [{| c_datetime := t; c_remote := ip;
                                        c_embedded := None |}])%list;
           connlog_new := connlog_new d; rlookup := rlookup d;
           connections := connections d |}
  end.

(** a connlog row as the migration copies it: datetime and remote *)
Definition without_embedded (row : ConnRow) : ConnRow :=
  {| c_datetime := c_datetime row; c_remote := c_remote row; c_embedded := None |}.

(** Modelled from the spec: a version-1 store, whose [initDB] is not in the
    source.  Its recorded version is "1", it has the table [connlog] with the
    rows [rows], keyed by datetime, and none of what the migration creates. *)
Definition version1_store (d : Database) (rows : list ConnRow) : Prop :=
  select_version d = Ok "1" /\
  connlog d = Some rows /\
  NoDup (map c_datetime rows) /\
  connlog_new d = None /\ rlookup d = None /\ connections d = None.

(** the row of [connections] for a connlog row without a reverse lookup *)
Definition unresolved (row : ConnRow) : ViewRow :=
  (c_datetime row, c_remote row, None).

(** * The network package *)

Module conf.

(** Modelled from the spec: [conf.QueryParams], whose declaration is not in
    the source; the fields are those the source uses. *)
Record QueryParams := {
  User : string;
  Host : string;
  Command : string;
  Kappa : Z;
  Format : string
}.

(** [conf.Operation]: the three operations [ClientMode] knows, and any
    other value *)
Inductive Operation :=
  | OP_IMPORT
  | OP_STATS
  | OP_QUERY
  | OP_other.

End conf.

(** the package variables of [conf] the network code reads *)
Record Config := {
  conf_Key : string;
  conf_Operation : conf.Operation;
  conf_User : string;
  conf_Hostname : string;
  conf_QParams : conf.QueryParams
}.

(** Message Types *)
Definition RESULT : string := "result".
Definition HISTORY : string := "history".
Definition STATS : string := "stats".
Definition QUERY : string := "query".

Record Message := {
  Type_ : string;
  Payload : string;
  User : string;
  Hostname : string;
  QParams : conf.QueryParams
}.

(** the zero values [conf.QueryParams{}] and [Message{}] *)
Definition QueryParams_zero : conf.QueryParams :=
  {| conf.User := ""; conf.Host := ""; conf.Command := ""; conf.Kappa := 0;
     conf.Format := "" |}.
Definition Message_zero : Message :=
  {| Type_ := ""; Payload := ""; User := ""; Hostname := ""; QParams := QueryParams_zero |}.

(** ** The libraries under the envelope

    [encoding/gob] and [saltsecret] are not code of this repository.  They are
    an interface here: what a gob encoder writes for a [Message] and for a
    byte slice, what a gob decoder reads back (for a byte slice, from a
    stream, with the bytes that follow), and the two directions of
    saltsecret.  Encryption draws a salt and a nonce; they are the argument
    [entropy]. *)
Class Codec := {
  gob_Encode_Message : Message -> string;
  gob_Decode_Message : string -> result Message;
  gob_Encode_bytes : string -> string;
  gob_Decode_bytes : string -> result (string * string);
  saltsecret_Encrypt : forall (key entropy plaintext : string), result string;
  saltsecret_Decrypt : forall (key ciphertext : string), result string
}.

(** what the libraries promise: a decoder reads back what an encoder wrote,
    and decrypting with the key of the encryption gives the plaintext *)
Class CodecLaws (C : Codec) : Prop := {
  Decode_Encode_Message :
    forall m, gob_Decode_Message (gob_Encode_Message m) = Ok m;
  Decode_Encode_bytes :
    forall b rest, gob_Decode_bytes (gob_Encode_bytes b ++ rest) = Ok (b, rest);
  Decrypt_Encrypt :
    forall key entropy p c,
      saltsecret_Encrypt key entropy p = Ok c -> saltsecret_Decrypt key c = Ok p
}.

(** Modelled from the spec: the query operations of the store that take
    [conf.QueryParams] and return bytes.  [handleConn] calls them; the source
    has none of them in this form, so the handler is stated over any. *)
Class Queries := {
  TopK : conf.QueryParams -> Database -> string * option error;
  LastK : conf.QueryParams -> Database -> string * option error;
  RunQuery : conf.QueryParams -> Database -> string * option error
}.

(** ** Connections

    One end of a TCP connection: the bytes the peer sends, not yet read; the
    bytes written so far; the error a write meets, if the transport is down;
    whether [Close] was called. *)
Record Conn := {
  inbox : string;
  outbox : string;
  write_error : option error;
  closed : bool
}.

Definition conn_Write (conn : Conn) (p : string) : result Conn :=
  match write_error conn with
  | Some err => Err err
  | None => Ok {| inbox := inbox conn; outbox := outbox conn ++ p;
                  write_error := None; closed := closed conn |}
  end.

Definition conn_Close (conn : Conn) : Conn :=
  {| inbox := inbox conn; outbox := outbox conn;
     write_error := write_error conn; closed := true |}.

Section Network.

Context {codec : Codec}.

(** [encryptDispatch(conn, m)]: msg -> [GOB] -> [ENCRYPT] -> [GOB] -> (dispatch) *)
Definition encryptDispatch (key entropy : string) (conn : Conn) (m : Message)
  : Conn * option error :=
  (* Serialize message, flush encrypter to encrypt it *)
  match saltsecret_Encrypt key entropy (gob_Encode_Message m) with
  | Err err => (conn, Some err)
  | Ok encMsg =>
      (* Serialize encrypted message and dispatch it *)
      match conn_Write conn (gob_Encode_bytes encMsg) with
      | Err err => (conn, Some err)
      | Ok conn' => (conn', None)
      end
  end.

(** [receiveDecrypt(conn)]: (receive) -> [de-GOB] -> [DECRYPT] -> [de-GOB] -> msg *)
Definition receiveDecrypt (key : string) (conn : Conn) : Conn * (Message * option error) :=
  (* Receive data and de-serialize to get the encrypted message *)
  match gob_Decode_bytes (inbox conn) with
  | Err err => (conn, (Message_zero, Some err))
  | Ok (encMsg, rest) =>
      let conn := {| inbox := rest; outbox := outbox conn;
                     write_error := write_error conn; closed := closed conn |} in
      (* Read unencrypted serialized message and de-serialize it *)
      match saltsecret_Decrypt key encMsg with
      | Err err => (conn, (Message_zero, Some err))
      | Ok plaintext =>
          match gob_Decode_Message plaintext with
          | Err err => (conn, (Message_zero, Some err))
          | Ok msg => (conn, (msg, None))
          end
      end
  end.

(** [ClientMode()].  [dial] is what [net.Dial] returns, [stdin] what
    [ioutil.ReadAll] returns for standard input.  The result is the error
    returned and the lines printed on standard output. *)
Definition ClientMode (cfg : Config) (entropy : string)
    (dial : result Conn) (stdin : result string) : option error * list string :=
  match dial with
  | Err err => (Some err, [])
  | Ok conn =>
      let exchange (msg : Message) (print : bool) : option error * list string :=
        match encryptDispatch (conf_Key cfg) entropy conn msg with
        | (_, Some err) => (Some err, [])
        | (conn, None) =>
            match receiveDecrypt (conf_Key cfg) conn with
            | (_, (_, Some err)) => (Some err, [])
            | (_, (reply, None)) =>
                (* switch reply.Type { case RESULT: ... } *)
                if String.eqb (Type_ reply) RESULT
                then (None, if print then [Payload reply] else [])
                else (None, [])
            end
        end in
      match conf_Operation cfg with
      | conf.OP_IMPORT =>
          match stdin with
          | Err err => (Some err, [])
          | Ok history =>
              (* the reply is logged, not printed *)
              exchange {| Type_ := HISTORY; Payload := history; User := conf_User cfg;
                          Hostname := conf_Hostname cfg; QParams := QueryParams_zero |}
                       false
          end
      | conf.OP_STATS =>
          exchange {| Type_ := STATS; Payload := ""; User := conf_User cfg;
                      Hostname := conf_Hostname cfg; QParams := QueryParams_zero |}
                   true
      | conf.OP_QUERY =>
          exchange {| Type_ := QUERY; Payload := ""; User := conf_User cfg;
                      Hostname := conf_Hostname cfg; QParams := conf_QParams cfg |}
                   true
      | conf.OP_other => (Some (errorString "unknown function"), [])
      end
  end.

Context {db_queries : Queries}.

(** how the [switch] of [handleConn] ends: with the function's [result], or
    in [log.Fatalln], which ends the process *)
Inductive dispatched :=
  | Result (result : string) (db : Database)
  | Fatalln (err : error).

Definition all_stats (k : Z) : conf.QueryParams :=
  {| conf.User := "%"; conf.Host := "%"; conf.Command := "%"; conf.Kappa := k;
     conf.Format := "" |}.

(** The [switch msg.Type] of [handleConn], entered with [var result []byte],
    which is nil.  [None] is [AddFromBuffer] out of fuel. *)
Definition handleConn_switch (msg : Message) (db : Database) : option dispatched :=
  let result := "" in
  if String.eqb (Type_ msg) HISTORY then
    match AddFromBuffer db (Payload msg) (User msg) (Hostname msg) with
    | None => None
    | Some (res, Some err, db') => Some (Result (Error err) db')
    | Some (res, None, db') => Some (Result res db')
    end
  else if String.eqb (Type_ msg) STATS then
    match TopK (all_stats 20) db with
    | (_, Some err) => Some (Fatalln err)
    | (res1, None) =>
        match LastK (all_stats 10) db with
        | (_, Some err) => Some (Fatalln err)
        | (res2, None) =>
            (* [result := res1] declares a variable of the case clause; the
               two [append] build the answer in it, and it ends with the
               clause *)
            let result' := res1 in
            let result' := result' ++ nl ++ nl in
            let result' := result' ++ res2 in
            Some (Result result db)
        end
    end
  else if String.eqb (Type_ msg) QUERY then
    match RunQuery (QParams msg) db with
    | (_, Some err) => Some (Fatalln err)
    | (result, None) => Some (Result result db)
    end
  else Some (Result result db).

(** [handleConn(conn)]: the connection and the database afterwards, and
    whether the process was ended by [log.Fatalln] (then the deferred
    [conn.Close()] does not run). *)
Definition handleConn (key entropy : string) (conn : Conn) (db : Database)
  : option (Conn * Database * bool) :=
  match receiveDecrypt key conn with
  | (conn, (_, Some err)) => Some (conn_Close conn, db, false)
  | (conn, (msg, None)) =>
      match handleConn_switch msg db with
      | None => None
      | Some (Fatalln err) => Some (conn, db, true)
      | Some (Result result db') =>
          let reply := {| Type_ := RESULT; Payload := result; User := "";
                          Hostname := ""; QParams := QueryParams_zero |} in
          let (conn, _) := encryptDispatch key entropy conn reply in
          Some (conn_Close conn, db', false)
      end
  end.

End Network.

(** ** A reference instance of the libraries

    A small codec that keeps the promises of [CodecLaws], to run the network
    code on concrete connections.  A byte string is framed by writing "1"
    before each byte and "0" after the last; a message is its fields framed
    one after the other; a sealed text is the framed entropy and key followed
    by the plaintext, and opening it checks the key. *)

Module Reference.

Fixpoint frame (b : string) : string :=
  match b with
  | "" => "0"
  | String c b' => String "1" (String c (frame b'))
  end.

Fixpoint unframe (s : string) : option (string * string) :=
  match s with
  | String t s1 =>
      if Ascii.eqb t "0" then Some ("", s1)
      else if Ascii.eqb t "1" then
        match s1 with
        | String c s2 =>
            match unframe s2 with
            | Some (b, rest) => Some (String c b, rest)
            | None => None
            end
        | "" => None
        end
      else None
  | "" => None
  end.

Fixpoint tally (n : nat) : string :=
  match n with
  | O => ""
  | S n' => String "|" (tally n')
  end.

Definition frame_int (k : Z) : string :=
  (if k <? 0 then "-" else "+") ++ frame (tally (Z.abs_nat k)).

Definition unframe_int (s : string) : option (Z * string) :=
  match s with
  | String sg s1 =>
      match unframe s1 with
      | Some (t, rest) =>
          let n := Z.of_nat (String.length t) in
          Some (if Ascii.eqb sg "-" then - n else n, rest)
      | None => None
      end
  | "" => None
  end.

Definition malformed : error := errorString "gob: malformed input".

Definition Encode_Message (m : Message) : string :=
  frame (Type_ m) ++ frame (Payload m) ++ frame (User m) ++ frame (Hostname m) ++
  frame (conf.User (QParams m)) ++ frame (conf.Host (QParams m)) ++
  frame (conf.Command (QParams m)) ++ frame_int (conf.Kappa (QParams m)) ++
  frame (conf.Format (QParams m)).

Definition Decode_Message (s : string) : result Message :=
  match unframe s with
  | Some (ty, s) =>
  match unframe s with
  | Some (payload, s) =>
  match unframe s with
  | Some (user, s) =>
  match unframe s with
  | Some (hostname, s) =>
  match unframe s with
  | Some (quser, s) =>
  match unframe s with
  | Some (qhost, s) =>
  match unframe s with
  | Some (qcommand, s) =>
  match unframe_int s with
  | Some (kappa, s) =>
  match unframe s with
  | Some (format, _) =>
      Ok {| Type_ := ty; Payload := payload; User := user; Hostname := hostname;
            QParams := {| conf.User := quser; conf.Host := qhost;
                          conf.Command := qcommand; conf.Kappa := kappa;
                          conf.Format := format |} |}
  | None => Err malformed end
  | None => Err malformed end
  | None => Err malformed end
  | None => Err malformed end
  | None => Err malformed end
  | None => Err malformed end
  | None => Err malformed end
  | None => Err malformed end
  | None => Err malformed end.

Definition Decode_bytes (s : string) : result (string * string) :=
  match unframe s with
  | Some r => Ok r
  | None => Err malformed
  end.

Definition Encrypt (key entropy plaintext : string) : result string :=
  Ok (frame entropy ++ frame key ++ plaintext).

Definition Decrypt (key ciphertext : string) : result string :=
  match unframe ciphertext with
  | Some (_, s) =>
      match unframe s with
      | Some (key', plaintext) =>
          if String.eqb key' key then Ok plaintext
          else Err (errorString "saltsecret: decryption failed")
      | None => Err (errorString "saltsecret: decryption failed")
      end
  | None => Err (errorString "saltsecret: decryption failed")
  end.

#[export] Instance codec : Codec := {
  gob_Encode_Message := Encode_Message;
  gob_Decode_Message := Decode_Message;
  gob_Encode_bytes := frame;
  gob_Decode_bytes := Decode_bytes;
  saltsecret_Encrypt := Encrypt;
  saltsecret_Decrypt := Decrypt
}.

(** the answers of the query operations over an empty history: the header
    lines of [TopK] and [LastK], and no rows *)
#[export] Instance no_rows : Queries := {
  TopK := fun q _ => ("Top-" ++ fmt_d (conf.Kappa q) ++ " commands:", None);
  LastK := fun q _ => ("Last " ++ fmt_d (conf.Kappa q) ++ " commands:", None);
  RunQuery := fun _ _ => ("", None)
}.

Definition stats_request : Message :=
  {| Type_ := STATS; Payload := ""; User := "alice"; Hostname := "laptop";
     QParams := QueryParams_zero |}.

Definition import_request : Message :=
  {| Type_ := HISTORY; Payload := Sample.three_lines; User := "alice";
     Hostname := "laptop"; QParams := QueryParams_zero |}.

Definition stats_config : Config :=
  {| conf_Key := "secret"; conf_Operation := conf.OP_STATS; conf_User := "alice";
     conf_Hostname := "laptop"; conf_QParams := QueryParams_zero |}.

(** an open connection on which the peer sends [bytes] *)
Definition receiving (bytes : string) : Conn :=
  {| inbox := bytes; outbox := ""; write_error := None; closed := false |}.

(** the bytes that carry [m] under [key] *)
Definition wire (key entropy : string) (m : Message) : string :=
  outbox (fst (encryptDispatch key entropy (receiving "") m)).

End Reference.

(** More sample data: stores and connections. *)

Module Stores.

Definition conn_a : ConnRow :=
  {| c_datetime := "2015-02-27 18:20:11"; c_remote := "192.0.2.7";
     c_embedded := Some "gw.example.org" |}.
Definition conn_b : ConnRow :=
  {| c_datetime := "2015-02-28 07:02:45"; c_remote := "198.51.100.23";
     c_embedded := None |}.

(** a version-1 store with two logged connections *)
Definition v1_store : Database :=
  {| history := [Sample.ls_row];
     admin := [("version", "1")];
     connlog := Some [conn_a; conn_b];
     connlog_new := None; rlookup := None; connections := None |}.

(** a version-1 store that never logged a connection *)
Definition v1_fresh : Database :=
  {| history := []; admin := [("version", "1")]; connlog := Some [];
     connlog_new := None; rlookup := None; connections := None |}.

(** the reply a server sends under the key "secret" *)
Definition reply_of (m : Message) : Conn :=
  Reference.receiving (Reference.wire "secret" "salt" m).

End Stores.

(* ===================================================================== *)
(** * More of the database package *)

(** [d.AddRecord(user, host, command, time)]: the prepared [insert] run on
    the database itself (no transaction); a duplicate primary key is ignored,
    any other error is returned. *)
Definition AddRecord (d : Database) (user host command : string) (time : Time)
  : option error * Database :=
  match insert_Exec (history d) user host command time with
  | Ok h => (None, set_history d h)
  | Err (sqlite3_Error ErrConstraintPrimaryKey) => (None, d)
  | Err err => (Some err, d)
  end.

(** [New()].  [file] is the database found at [conf.DbFile], [None] when the
    file does not exist.  A new file is initialised, an existing one is
    migrated; then the insert statement is prepared, which the table
    [history] of every store lets succeed. *)
Definition New (file : option Database) : result Database :=
  match file with
  | None => Ok initDB
  | Some d =>
      match migrate d with
      | (_, Some err) => Err err
      | (d', None) => Ok d'
      end
  end.

(** ** SQLite's LIKE

    [value LIKE pattern [ESCAPE escape]] on UTF-8 text: [%] stands for any
    sequence of characters, [_] for one character, the character after the
    escape character for itself; other characters stand for themselves, the
    ASCII letters in either case.  A character is a byte below 0xC0, or a
    byte from 0xC0 on with the continuation bytes (0x80 to 0xBF) after it. *)

Definition is_continuation (c : ascii) : bool :=
  let n := nat_of_ascii c in (Nat.leb 128 n && Nat.leb n 191)%bool.

Definition is_lead (c : ascii) : bool := Nat.leb 192 (nat_of_ascii c).

Fixpoint skip_continuation (s : string) : string :=
  match s with
  | String c s' => if is_continuation c then skip_continuation s' else s
  | "" => ""
  end.

(** the text after the first character of [String c s'] *)
Definition after_char (c : ascii) (s' : string) : string :=
  if is_lead c then skip_continuation s' else s'.

Definition eq_nocase (a b : ascii) : bool := Ascii.eqb (lower a) (lower b).

Fixpoint sqlite_like (escape : option ascii) (pattern : string) : string -> bool :=
  match pattern with
  | "" => fun value => match value with "" => true | _ => false end
  | String p pattern' =>
      if Ascii.eqb p "%" then
        (* try the rest of the pattern at every character boundary *)
        (fix any (inside : bool) (value : string) : bool :=
           match value with
           | "" => sqlite_like escape pattern' ""
           | String c value' =>
               if (inside && is_continuation c)%bool then any true value'
               else (sqlite_like escape pattern' value || any (is_lead c) value')%bool
           end) false
      else if match escape with Some e => Ascii.eqb p e | None => false end then
        match pattern' with
        | "" => fun _ => false
        | String q pattern'' =>
            fun value =>
              match value with
              | String c value' => (eq_nocase q c && sqlite_like escape pattern'' value')%bool
              | "" => false
              end
        end
      else if Ascii.eqb p "_" then
        fun value =>
          match value with
          | String c value' => sqlite_like escape pattern' (after_char c value')
          | "" => false
          end
      else
        fun value =>
          match value with
          | String c value' => (eq_nocase p c && sqlite_like escape pattern' value')%bool
          | "" => false
          end
  end.

(** ** t.Unix() *)

(** the leap years from year 1 to year [y - 1] *)
Definition leaps_before (y : Z) : Z := (y - 1) / 4 - (y - 1) / 100 + (y - 1) / 400.

(** days from 1970-01-01 to the first of January of [y] *)
Definition days_to_year (y : Z) : Z := 365 * (y - 1970) + leaps_before y - leaps_before 1970.

(** days from the first of January to the first of month [m] of year [y] *)
Definition days_to_month (m y : Z) : Z :=
  nth (Z.to_nat (m - 1)) [0; 31; 59; 90; 120; 151; 181; 212; 243; 273; 304; 334] 0
  + (if (2 <? m) && isLeap y then 1 else 0).

(** [t.Unix()]: the seconds from 1970-01-01T00:00:00Z to [t] *)
Definition Unix (t : Time) : Z :=
  ((days_to_year (year t) + days_to_month (month t) (year t) + (day t - 1)) * 24
   + hour t) * 3600 + minute t * 60 + second t - zoneOffset t.

(** ** Restore *)

Definition backslash : ascii := "\"%char.

(** the rows of
    SELECT datetime, command FROM history WHERE user LIKE ? AND host LIKE ? ESCAPE '\'
    in the order of the table; the ESCAPE belongs to the second LIKE *)
Definition select_restore (d : Database) (user hostname : string) : list HistoryRow :=
  filter (fun row => sqlite_like None user (h_user row) &&
                     sqlite_like (Some backslash) hostname (h_host row))
         (history d).

(** [fmt.Sprintf("#%d\n%s\n", t.Unix(), command)] *)
Definition Sprintf_restore (t : Time) (command : string) : string :=
  "#" ++ fmt_d (Unix t) ++ nl ++ command ++ nl.

(** [d.Restore(user, hostname)] *)
Definition Restore (d : Database) (user hostname : string) : string * option error :=
  let result :=
    fold_left (fun buf row => buf ++ Sprintf_restore (h_datetime row) (h_command row))
              (select_restore d user hostname) "" in
  (* Return the result without the newline at the end. *)
  (TrimSuffix result nl, None).

(** the lines of the restore format for a list of rows: for each row the
    comment line with its epoch, then its command *)
Definition restore_lines (rows : list HistoryRow) : list string :=
  flat_map (fun row => ["#" ++ fmt_d (Unix (h_datetime row)); h_command row]) rows.

(** the rows of the view [v] for one row of [connlog] *)
Definition view_rows (v : ViewDef) (row : ConnRow) (r : list LookupRow) : list ViewRow :=
  match lookups (c_remote row) r, v with
  | [], LEFT_JOIN_rlookup => [(c_datetime row, c_remote row, None)]
  | found, _ => map (fun x => (c_datetime row, c_remote row, Some (r_reverse x))) found
  end.

(** * More of the network package *)

(** a connection just opened, on which the peer is going to send [bytes] *)
Definition dialled (bytes : string) : Conn :=
  {| inbox := bytes; outbox := ""; write_error := None; closed := false |}.

(** the RESULT message [handleConn] builds around a payload *)
Definition result_message (payload : string) : Message :=
  {| Type_ := RESULT; Payload := payload; User := ""; Hostname := "";
     QParams := QueryParams_zero |}.

(** the requests [ClientMode] builds *)
Definition history_request (cfg : Config) (history : string) : Message :=
  {| Type_ := HISTORY; Payload := history; User := conf_User cfg;
     Hostname := conf_Hostname cfg; QParams := QueryParams_zero |}.
Definition query_request (cfg : Config) : Message :=
  {| Type_ := QUERY; Payload := ""; User := conf_User cfg;
     Hostname := conf_Hostname cfg; QParams := conf_QParams cfg |}.

(** a message of a type the server does not know *)
Definition ping_request : Message :=
  {| Type_ := "ping"; Payload := "x"; User := "alice"; Hostname := "laptop";
     QParams := QueryParams_zero |}.

(** a LIKE pattern without wildcards, and without the escape character when
    there is one *)
Fixpoint plain (escape : option ascii) (pattern : string) : bool :=
  match pattern with
  | "" => true
  | String p pattern' =>
      negb (Ascii.eqb p "%") && negb (Ascii.eqb p "_") &&
      negb (match escape with Some e => Ascii.eqb p e | None => false end) &&
      plain escape pattern'
  end.

(** ** Prefixes of a text by a character class *)

Fixpoint all_of (cls : ascii -> bool) (s : string) : bool :=
  match s with
  | "" => true
  | String c s' => cls c && all_of cls s'
  end.

Fixpoint take_while (cls : ascii -> bool) (s : string) : string :=
  match s with
  | "" => ""
  | String c s' => if cls c then String c (take_while cls s') else ""
  end.

Fixpoint drop_while (cls : ascii -> bool) (s : string) : string :=
  match s with
  | "" => ""
  | String c s' => if cls c then drop_while cls s' else s
  end.

(** the characters of the line number of a history line: spaces, digits and
    the marker of a modified entry *)
Definition linenum_char (c : ascii) : bool :=
  Regexp.lit " " c || Regexp.digit c || Regexp.lit "*" c.

(** One turn of the accept loop of [ServerMode], for a connection accepted
    at time [t] from the address [ip], with the handler run to its end:
    [db.LogConn(conn.RemoteAddr())], whose error is always nil, then
    [handleConn(conn)]. *)
Definition ServerMode_turn {codec : Codec} {db_queries : Queries}
    (key entropy t ip : string) (conn : Conn) (db : Database)
  : option (Conn * Database * bool) :=
  handleConn key entropy conn (LogConn db t ip).

(* ===================================================================== *)
(** * Properties of AddFromBuffer *)

Arguments time_Parse : simpl never.
Arguments stamp_of : simpl never.
Arguments matches : simpl never.
Arguments Regexp.FindStringSubmatch : simpl never.

Section Lines.

Lemma ReadString_lines (r : string) :
  match ReadString r newline with
  | (line, None, rest) =>
      lines_of r = line :: lines_of rest /\ (String.length rest < String.length r)%nat
  | (_, Some e, _) => e = io_EOF /\ lines_of r = []
  end.
Proof.
  induction r as [|c r IH]; simpl.
  - split; reflexivity.
  - destruct (Ascii.eqb c newline) eqn:Hc.
    + split; [reflexivity | lia].
    + destruct (ReadString r newline) as [[line err] rest].
      destruct err as [e|].
      * destruct IH as [-> ->]. split; reflexivity.
      * destruct IH as [-> Hlen]. split; [reflexivity | lia].
Qed.

Lemma length_lines_of (r : string) :
  List.length (lines_of r) = count_newlines r.
Proof.
  induction r as [|c r IH]; simpl; [reflexivity|].
  destruct (Ascii.eqb c newline); simpl; [congruence|].
  destruct (lines_of r); simpl in *; exact IH.
Qed.

Lemma lines_of_no_newline (f : string) :
  count_newlines f = O -> lines_of f = [].
Proof.
  induction f as [|c f IH]; simpl; [reflexivity|].
  destruct (Ascii.eqb c newline); [discriminate|].
  intros H. rewrite (IH H). reflexivity.
Qed.

Lemma complete_inv (c : ascii) (r : string) :
  complete (String c r) = true ->
  (r = "" /\ Ascii.eqb c newline = true) \/ (r <> "" /\ complete r = true).
Proof.
  destruct r as [|c' r']; simpl; intros H.
  - left. split; [reflexivity | exact H].
  - right. split; [discriminate | exact H].
Qed.

Lemma lines_of_complete (r : string) :
  complete r = true -> r <> "" -> lines_of r <> [].
Proof.
  induction r as [|c r IH]; intros Hc Hne; [congruence|].
  cbn [lines_of]. destruct (Ascii.eqb c newline) eqn:E; [discriminate|].
  destruct (complete_inv _ _ Hc) as [[_ Hn] | [Hr Hc']]; [congruence|].
  specialize (IH Hc' Hr). destruct (lines_of r); [congruence | discriminate].
Qed.

Lemma lines_of_app (r s : string) :
  complete r = true -> lines_of (r ++ s) = (lines_of r ++ lines_of s)%list.
Proof.
  induction r as [|c r IH]; intros Hc; [reflexivity|].
  change (String c r ++ s) with (String c (r ++ s)). cbn [lines_of].
  destruct (complete_inv _ _ Hc) as [[-> Hn] | [Hr Hc']].
  - rewrite Hn. reflexivity.
  - rewrite (IH Hc').
    destruct (Ascii.eqb c newline); [reflexivity|].
    pose proof (lines_of_complete r Hc' Hr) as Hl.
    destruct (lines_of r); [congruence | reflexivity].
Qed.

Lemma complete_app (r s : string) :
  complete r = true -> complete s = true -> complete (r ++ s) = true.
Proof.
  induction r as [|c r IH]; intros Hr Hs; [exact Hs|].
  destruct (complete_inv _ _ Hr) as [[-> Hn] | [Hne Hc']].
  - destruct s as [|c' s']; [exact Hr | exact Hs].
  - specialize (IH Hc' Hs).
    change (String c r ++ s) with (String c (r ++ s)).
    destruct r as [|c' r']; [congruence|]. exact IH.
Qed.

Lemma lines_of_line (l : string) :
  is_line l = true -> lines_of l = [l].
Proof.
  unfold is_line. rewrite andb_true_iff, Nat.eqb_eq.
  induction l as [|c l IH]; intros [Hn Hc]; [discriminate|].
  cbn [lines_of count_newlines] in *.
  destruct (complete_inv _ _ Hc) as [[-> Hnl] | [Hne Hc']].
  - rewrite Hnl. reflexivity.
  - destruct (Ascii.eqb c newline) eqn:E.
    + exfalso. pose proof (lines_of_complete l Hc' Hne) as Hl.
      rewrite <- length_lines_of in Hn. destruct (lines_of l); [congruence | discriminate].
    + rewrite (IH (conj Hn Hc')). reflexivity.
Qed.

Lemma is_line_complete (l : string) : is_line l = true -> complete l = true.
Proof. unfold is_line. rewrite andb_true_iff. tauto. Qed.

Lemma complete_concat (ls : list string) :
  Forall (fun l => is_line l = true) ls -> complete (String.concat "" ls) = true.
Proof.
  induction 1 as [|l ls Hl _ IH]; [reflexivity|].
  destruct ls as [|l' ls'].
  - simpl. apply is_line_complete, Hl.
  - change (String.concat "" (l :: l' :: ls')) with (l ++ "" ++ String.concat "" (l' :: ls')).
    apply complete_app; [apply is_line_complete, Hl | exact IH].
Qed.

Lemma lines_of_concat (ls : list string) :
  Forall (fun l => is_line l = true) ls -> lines_of (String.concat "" ls) = ls.
Proof.
  induction 1 as [|l ls Hl _ IH]; [reflexivity|].
  destruct ls as [|l' ls'].
  - simpl. apply lines_of_line, Hl.
  - change (String.concat "" (l :: l' :: ls')) with (l ++ "" ++ String.concat "" (l' :: ls')).
    rewrite lines_of_app by (apply is_line_complete, Hl).
    change ("" ++ String.concat "" (l' :: ls')) with (String.concat "" (l' :: ls')).
    rewrite IH, (lines_of_line l Hl). reflexivity.
Qed.

End Lines.

Section Importing.

Variables user host : string.

(** The loop, given fuel, is the turns over the lines of the buffer and one
    more turn that meets [io.EOF]. *)
Lemma AddFromBuffer_loop_lines (fuel : nat) :
  forall (r : Reader) (tx : list HistoryRow) (total failed : Z),
    (String.length r < fuel)%nat ->
    AddFromBuffer_loop fuel r user host tx total failed =
    Some (match import_lines user host (lines_of r) tx failed with
          | Ok (tx', failed') =>
              Ok (tx', total + Z.of_nat (List.length (lines_of r)) + 1, failed')
          | Err e => Err e
          end).
Proof.
  induction fuel as [|fuel IH]; intros r tx total failed Hlt; [lia|].
  cbn [AddFromBuffer_loop].
  pose proof (ReadString_lines r) as Hr.
  destruct (ReadString r newline) as [[line err] rest].
  destruct err as [e|].
  - destruct Hr as [-> ->]. cbn [import_lines lines_of List.length].
    replace (total + Z.of_nat 0 + 1) with (total + 1) by lia. reflexivity.
  - destruct Hr as [-> Hlen]. cbn [import_lines].
    destruct (AddFromBuffer_turn user host line tx failed) as [tx' failed'|e]; [|reflexivity].
    rewrite IH by lia.
    destruct (import_lines user host (lines_of rest) tx' failed') as [[tx2 f2]|e];
      [|reflexivity].
    cbn [List.length].
    replace (total + 1 + Z.of_nat (List.length (lines_of rest)) + 1)
      with (total + Z.of_nat (S (List.length (lines_of rest))) + 1) by lia.
    reflexivity.
Qed.

(** [AddFromBuffer] in terms of the lines of its buffer; in particular the
    fuel it gives the loop is enough. *)
Lemma AddFromBuffer_lines (d : Database) (r : Reader) :
  AddFromBuffer d r user host =
  Some (match import_lines user host (lines_of r) (history d) 0 with
        | Ok (tx, failed) =>
            let total := Z.of_nat (count_newlines r) in
            (Sprintf_stats total (total - failed) failed, None, set_history d tx)
        | Err e => ("", Some e, d)
        end).
Proof.
  unfold AddFromBuffer. rewrite AddFromBuffer_loop_lines by lia.
  destruct (import_lines user host (lines_of r) (history d) 0) as [[tx failed]|e];
    [|reflexivity].
  rewrite length_lines_of. cbv zeta.
  replace (0 + Z.of_nat (count_newlines r) + 1 - 1) with (Z.of_nat (count_newlines r)) by lia.
  reflexivity.
Qed.

Lemma AddFromBuffer_total (d : Database) (r : Reader) :
  exists res, AddFromBuffer d r user host = Some res.
Proof. rewrite AddFromBuffer_lines. eexists. reflexivity. Qed.

(** *** One turn, by the kind of line *)

Lemma turn_skip (l : string) (tx : list HistoryRow) (failed : Z) :
  matches l = false ->
  AddFromBuffer_turn user host l tx failed = Continue tx (failed + 1).
Proof.
  unfold AddFromBuffer_turn, matches. intros ->. reflexivity.
Qed.

Lemma turn_fatal (l : string) (e : error) (tx : list HistoryRow) (failed : Z) :
  matches l = true -> stamp_of l = Err e ->
  AddFromBuffer_turn user host l tx failed = Return e.
Proof.
  unfold AddFromBuffer_turn, matches, stamp_of. intros -> ->. reflexivity.
Qed.

Lemma turn_record (l : string) (row : HistoryRow) (tx : list HistoryRow) (failed : Z) :
  record_of user host l = Some row ->
  AddFromBuffer_turn user host l tx failed =
  if existsb (same_key row) tx then Continue tx (failed + 1)
  else Continue (tx ++ [row])%list failed.
Proof.
  unfold record_of, AddFromBuffer_turn, matches, stamp_of, insert_Exec.
  destruct (Nat.eqb _ 3); [|discriminate]. cbn [negb].
  destruct (time_Parse _ _) as [time|e]; [|discriminate].
  intros [= <-]. destruct (existsb _ tx); reflexivity.
Qed.

Lemma record_of_None (l : string) :
  tolerated l = true -> record_of user host l = None -> matches l = false.
Proof.
  unfold tolerated, record_of. destruct (matches l); [|reflexivity].
  destruct (stamp_of l); [discriminate|]. cbn. discriminate.
Qed.

Lemma well_formed_record (l : string) :
  well_formed l = true <-> exists row, record_of user host l = Some row.
Proof.
  unfold well_formed, record_of.
  destruct (matches l), (stamp_of l); cbn [andb]; split;
    solve [ discriminate | eauto | intros [row Hrow]; discriminate ].
Qed.

Lemma well_formed_tolerated (l : string) :
  well_formed l = true -> tolerated l = true.
Proof.
  unfold well_formed, tolerated. destruct (matches l); cbn; [auto | discriminate].
Qed.

(** *** Primary keys *)

Lemma Time_eqb_refl (t : Time) : Time_eqb t t = true.
Proof. unfold Time_eqb. rewrite !Z.eqb_refl. reflexivity. Qed.

Lemma Time_eqb_sym (a b : Time) : Time_eqb a b = Time_eqb b a.
Proof.
  unfold Time_eqb.
  rewrite (Z.eqb_sym (year a)), (Z.eqb_sym (month a)), (Z.eqb_sym (day a)),
    (Z.eqb_sym (hour a)), (Z.eqb_sym (minute a)), (Z.eqb_sym (second a)),
    (Z.eqb_sym (zoneOffset a)).
  reflexivity.
Qed.

Lemma same_key_refl (a : HistoryRow) : same_key a a = true.
Proof. unfold same_key. rewrite !String.eqb_refl, Time_eqb_refl. reflexivity. Qed.

Lemma same_key_sym (a b : HistoryRow) : same_key a b = same_key b a.
Proof.
  unfold same_key.
  rewrite (String.eqb_sym (h_user a)), (String.eqb_sym (h_command a)), Time_eqb_sym.
  reflexivity.
Qed.

Lemma distinct_keys_fresh (tx rest : list HistoryRow) (row : HistoryRow) :
  distinct_keys (tx ++ row :: rest) = true -> existsb (same_key row) tx = false.
Proof.
  induction tx as [|x tx IH]; [reflexivity|].
  cbn [app distinct_keys existsb]. rewrite andb_true_iff, negb_true_iff, existsb_app.
  cbn [existsb]. intros [Hx Hd].
  apply orb_false_iff in Hx as [_ Hx]. apply orb_false_iff in Hx as [Hx _].
  rewrite (IH Hd), orb_false_r, same_key_sym. exact Hx.
Qed.

(** *** The turns over a list of lines *)

Lemma turn_tolerated (l : string) (tx : list HistoryRow) (failed : Z) :
  tolerated l = true ->
  (record_of user host l = None /\
   AddFromBuffer_turn user host l tx failed = Continue tx (failed + 1)) \/
  (exists row, record_of user host l = Some row /\
     AddFromBuffer_turn user host l tx failed =
     if existsb (same_key row) tx then Continue tx (failed + 1)
     else Continue (tx ++ [row])%list failed).
Proof.
  intros Ht. destruct (record_of user host l) as [row|] eqn:Hrec.
  - right. exists row. split; [reflexivity | apply turn_record, Hrec].
  - left. split; [reflexivity | apply turn_skip, record_of_None; assumption].
Qed.

Lemma import_lines_fatal (ls : list string) :
  forall (tx : list HistoryRow) (failed : Z) (l : string) (e : error),
    In l ls -> matches l = true -> stamp_of l = Err e ->
    exists e', import_lines user host ls tx failed = Err e'.
Proof.
  induction ls as [|x ls IH]; intros tx failed l e Hin Hm Hs; [contradiction|].
  cbn [import_lines]. destruct Hin as [-> | Hin].
  - rewrite (turn_fatal l e tx failed Hm Hs). eexists; reflexivity.
  - destruct (AddFromBuffer_turn user host x tx failed) as [tx' failed'|e'].
    + eapply IH; eassumption.
    + eexists; reflexivity.
Qed.

(** Tolerated lines never end the import: it appends some rows [new], one
    for each line that did not fail, and every record of the text has its
    key in the table afterwards. *)
Lemma import_lines_tolerated (ls : list string) :
  Forall (fun l => tolerated l = true) ls ->
  forall (tx : list HistoryRow) (failed : Z),
  exists (new : list HistoryRow) (failed' : Z),
    import_lines user host ls tx failed = Ok ((tx ++ new)%list, failed') /\
    Z.of_nat (List.length new) = Z.of_nat (List.length ls) - (failed' - failed) /\
    failed <= failed' /\
    (forall l row, In l ls -> record_of user host l = Some row ->
                   existsb (same_key row) (tx ++ new) = true).
Proof.
  induction 1 as [|l ls Hl _ IH]; intros tx failed.
  - exists [], failed. cbn [import_lines List.length]. rewrite app_nil_r.
    repeat split; try lia. intros l row [].
  - cbn [import_lines].
    destruct (turn_tolerated l tx failed Hl) as [[Hrec ->] | [row [Hrec ->]]].
    + destruct (IH tx (failed + 1)) as (new & f' & Hrun & Hlen & Hle & Hkeys).
      exists new, f'. cbn [List.length]. repeat split; try assumption; try lia.
      intros l0 row0 [<- | Hin] H0; [congruence | eauto].
    + destruct (existsb (same_key row) tx) eqn:Hdup.
      * destruct (IH tx (failed + 1)) as (new & f' & Hrun & Hlen & Hle & Hkeys).
        exists new, f'. cbn [List.length]. repeat split; try assumption; try lia.
        intros l0 row0 [<- | Hin] H0; [|eauto].
        rewrite Hrec in H0. injection H0 as <-.
        rewrite existsb_app, Hdup. reflexivity.
      * destruct (IH (tx ++ [row])%list failed) as (new & f' & Hrun & Hlen & Hle & Hkeys).
        exists (row :: new), f'. rewrite <- app_assoc in Hrun, Hkeys.
        cbn [app List.length] in *. repeat split; try assumption; try lia.
        intros l0 row0 [<- | Hin] H0; [|eauto].
        rewrite Hrec in H0. injection H0 as <-.
        rewrite existsb_app. cbn [existsb]. rewrite same_key_refl, orb_true_r.
        reflexivity.
Qed.

(** When every record of the lines is in the table already, every line
    fails and the table stays as it is. *)
Lemma import_lines_replay (ls : list string) :
  Forall (fun l => tolerated l = true) ls ->
  forall (tx : list HistoryRow) (failed : Z),
    (forall l row, In l ls -> record_of user host l = Some row ->
                   existsb (same_key row) tx = true) ->
    import_lines user host ls tx failed = Ok (tx, failed + Z.of_nat (List.length ls)).
Proof.
  induction 1 as [|l ls Hl _ IH]; intros tx failed Hkeys.
  - cbn. rewrite Z.add_0_r. reflexivity.
  - cbn [import_lines].
    assert (Hturn : AddFromBuffer_turn user host l tx failed = Continue tx (failed + 1)).
    { destruct (turn_tolerated l tx failed Hl) as [[_ ->] | [row [Hrec ->]]];
        [reflexivity|].
      rewrite (Hkeys l row (or_introl eq_refl) Hrec). reflexivity. }
    rewrite Hturn, IH by (intros l0 row0 Hin; apply Hkeys; right; exact Hin).
    cbn [List.length]. do 2 f_equal. lia.
Qed.

(** Tolerated lines whose records are new to the table and distinct: the
    records are appended in order, the other lines are the failed ones. *)
Lemma import_lines_fresh (ls : list string) :
  Forall (fun l => tolerated l = true) ls ->
  forall (tx : list HistoryRow) (failed : Z),
    distinct_keys (tx ++ records_of user host ls) = true ->
    import_lines user host ls tx failed =
    Ok ((tx ++ records_of user host ls)%list,
        failed + (Z.of_nat (List.length ls)
                  - Z.of_nat (List.length (records_of user host ls)))).
Proof.
  induction 1 as [|l ls Hl _ IH]; intros tx failed Hd.
  - cbn. rewrite app_nil_r, Z.add_0_r. reflexivity.
  - cbn [import_lines records_of] in *.
    destruct (turn_tolerated l tx failed Hl) as [[Hrec ->] | [row [Hrec ->]]];
      rewrite Hrec in *.
    + rewrite (IH tx (failed + 1) Hd). cbn [List.length]. do 2 f_equal. lia.
    + rewrite (distinct_keys_fresh _ _ _ Hd).
      replace (tx ++ row :: records_of user host ls)%list
        with ((tx ++ [row]) ++ records_of user host ls)%list in *
        by (rewrite <- app_assoc; reflexivity).
      rewrite (IH _ failed Hd). cbn [List.length]. do 2 f_equal. lia.
Qed.

End Importing.

(** ** The claims about AddFromBuffer *)

Lemma count_newlines_concat (ls : list string) :
  Forall (fun l => is_line l = true) ls ->
  count_newlines (String.concat "" ls) = List.length ls.
Proof.
  intros H. rewrite <- length_lines_of, (lines_of_concat ls H). reflexivity.
Qed.

Lemma length_records_of (user host : string) (ls : list string) :
  List.length (records_of user host ls) = List.length (filter well_formed ls).
Proof.
  induction ls as [|l ls IH]; [reflexivity|].
  cbn [records_of filter].
  destruct (well_formed l) eqn:Hw.
  - apply (well_formed_record user host) in Hw as [row ->]. cbn [List.length]. congruence.
  - destruct (record_of user host l) as [row|] eqn:Hrec; [|exact IH].
    assert (well_formed l = true) by (apply (well_formed_record user host); eauto).
    congruence.
Qed.

Lemma length_well_formed_or_not (ls : list string) :
  Forall (fun l => well_formed l = true \/ matches l = false) ls ->
  List.length ls =
  (List.length (filter well_formed ls) +
   List.length (filter (fun l => negb (matches l)) ls))%nat.
Proof.
  induction 1 as [|l ls Hl _ IH]; [reflexivity|].
  cbn [filter List.length]. unfold well_formed in *.
  destruct (matches l); cbn [andb negb] in *.
  - destruct Hl as [-> | Hl]; [|discriminate]. cbn [List.length]. lia.
  - cbn [List.length]. lia.
Qed.

(** every buffer is newline-terminated lines followed by a fragment without
    a newline (which is empty when the last line is terminated) *)
Lemma split_last_line (s : string) :
  exists r f, s = r ++ f /\ complete r = true /\ count_newlines f = O.
Proof.
  induction s as [|c s (r & f & -> & Hr & Hf)].
  - exists "", "". repeat split.
  - destruct r as [|c' r'].
    + destruct (Ascii.eqb c newline) eqn:Hc.
      * exists (String c ""), f. cbn [append complete]. repeat split; assumption.
      * exists "", (String c f). cbn [append count_newlines]. rewrite Hc.
        repeat split. exact Hf.
    + exists (String c (String c' r')), f. repeat split; assumption.
Qed.

(** C10.  A buffer [r] of newline-terminated lines followed by a fragment [f]
    without a newline: [AddFromBuffer] returns, and what it returns (summary,
    error and database) is what it returns for [r] alone, so the fragment is
    neither parsed nor inserted nor counted; the total of the summary is the
    number of newlines of the input. *)
Theorem AddFromBuffer_trailing_fragment (d : Database) (r f user host : string) :
  complete r = true ->
  count_newlines f = O ->
  AddFromBuffer d (r ++ f) user host = AddFromBuffer d r user host /\
  (exists res, AddFromBuffer d (r ++ f) user host = Some res) /\
  (forall stats d',
      AddFromBuffer d (r ++ f) user host = Some (stats, None, d') ->
      exists failed,
        let total := Z.of_nat (count_newlines (r ++ f)) in
        stats = Sprintf_stats total (total - failed) failed).
Proof.
  intros Hr Hf.
  assert (Hlines : lines_of (r ++ f) = lines_of r).
  { rewrite (lines_of_app r f Hr), (lines_of_no_newline f Hf). apply app_nil_r. }
  assert (Hcount : count_newlines (r ++ f) = count_newlines r).
  { rewrite <- !length_lines_of, Hlines. reflexivity. }
  split; [|split].
  - rewrite !AddFromBuffer_lines, Hlines, Hcount. reflexivity.
  - apply AddFromBuffer_total.
  - intros stats d'. rewrite AddFromBuffer_lines.
    destruct (import_lines user host (lines_of (r ++ f)) (history d) 0) as [[tx failed]|e].
    + intros [= <- _]. exists failed. reflexivity.
    + intros H. inversion H.
Qed.

(** C4, as amended.  When the input has a newline-terminated line that
    matches the pattern and whose timestamp field does not parse, the import
    returns an error and no summary, and the database is as it was before. *)
Theorem AddFromBuffer_bad_timestamp
    (d : Database) (pre line post user host : string) (e : error) :
  complete pre = true ->
  is_line line = true ->
  matches line = true ->
  stamp_of line = Err e ->
  exists e', AddFromBuffer d (pre ++ line ++ post) user host = Some ("", Some e', d).
Proof.
  intros Hpre Hline Hm Hs. rewrite AddFromBuffer_lines.
  rewrite (lines_of_app pre _ Hpre), (lines_of_app line post (is_line_complete _ Hline)),
    (lines_of_line line Hline).
  destruct (import_lines_fatal user host (lines_of pre ++ [line] ++ lines_of post)
              (history d) 0 line e) as [e' ->]; try assumption.
  - apply in_or_app. right. left. reflexivity.
  - exists e'. reflexivity.
Qed.

(** C5, as amended.  Into a store with no history, an input of ten
    well-formed newline-terminated lines, with pairwise distinct (command,
    timestamp), and three newline-terminated lines that do not match the
    pattern, in any order: the import commits the ten records and reports
    total 13, successful 10, failed 3. *)
Theorem AddFromBuffer_ten_and_three (d : Database) (ls : list string) (user host : string) :
  history d = [] ->
  Forall (fun l => is_line l = true) ls ->
  Forall (fun l => well_formed l = true \/ matches l = false) ls ->
  List.length (filter well_formed ls) = 10%nat ->
  List.length (filter (fun l => negb (matches l)) ls) = 3%nat ->
  distinct_keys (records_of user host ls) = true ->
  AddFromBuffer d (String.concat "" ls) user host =
    Some ("Processed 13 entries, successful 10, failed 3.", None,
          set_history d (records_of user host ls)) /\
  List.length (records_of user host ls) = 10%nat.
Proof.
  intros Hd Hlines Hkind Hgood Hbad Hkeys.
  pose proof (length_well_formed_or_not ls Hkind) as Hlen.
  pose proof (length_records_of user host ls) as Hrec.
  split; [|congruence].
  rewrite AddFromBuffer_lines, (lines_of_concat ls Hlines),
    (count_newlines_concat ls Hlines), Hd.
  rewrite import_lines_fresh.
  - cbn [app]. rewrite Hrec, Hlen, Hgood, Hbad. reflexivity.
  - eapply Forall_impl; [|exact Hkind]. cbn beta.
    intros l [Hw | Hm]; [apply well_formed_tolerated, Hw|].
    unfold tolerated. rewrite Hm. reflexivity.
  - exact Hkeys.
Qed.

(** C3, as amended.  Importing a well-formed text twice for the same user and
    host: the first run appends some rows [new] and fails on the lines whose
    key was there already; the second run returns no error, leaves the
    database as the first run left it, and reports every line failed, which
    is the first run's inserted lines plus its failed lines (so the number
    inserted by the first run when that run reported no failure).  A turn
    whose record meets its key in the table adds one to the failed counter
    and goes on with the transaction. *)
Theorem AddFromBuffer_twice (d : Database) (r : Reader) (user host : string) :
  Forall (fun l => well_formed l = true) (lines_of r) ->
  exists (new : list HistoryRow) (failed1 : Z),
    let n := Z.of_nat (count_newlines r) in
    let inserted := Z.of_nat (List.length new) in
    let d1 := set_history d (history d ++ new) in
    AddFromBuffer d r user host = Some (Sprintf_stats n inserted failed1, None, d1) /\
    n = inserted + failed1 /\
    0 <= failed1 /\
    AddFromBuffer d1 r user host = Some (Sprintf_stats n 0 n, None, d1) /\
    (failed1 = 0 -> n = inserted) /\
    (forall l row tx failed,
        record_of user host l = Some row -> existsb (same_key row) tx = true ->
        AddFromBuffer_turn user host l tx failed = Continue tx (failed + 1)).
Proof.
  intros Hwf.
  assert (Htol : Forall (fun l => tolerated l = true) (lines_of r)).
  { eapply Forall_impl; [|exact Hwf]. intros l. apply well_formed_tolerated. }
  destruct (import_lines_tolerated user host (lines_of r) Htol (history d) 0)
    as (new & failed1 & Hrun & Hlen & Hle & Hkeys).
  rewrite length_lines_of in Hlen.
  exists new, failed1. cbv zeta.
  split; [|split; [|split; [|split; [|split]]]].
  - rewrite AddFromBuffer_lines, Hrun. cbv zeta.
    replace (Z.of_nat (count_newlines r) - failed1) with (Z.of_nat (List.length new)) by lia.
    reflexivity.
  - lia.
  - exact Hle.
  - rewrite AddFromBuffer_lines. cbn [history set_history].
    rewrite (import_lines_replay user host (lines_of r) Htol _ 0 Hkeys).
    rewrite length_lines_of. cbv zeta.
    replace (0 + Z.of_nat (count_newlines r)) with (Z.of_nat (count_newlines r)) by lia.
    rewrite Z.sub_diag. reflexivity.
  - lia.
  - intros l row tx failed Hrec Hdup.
    rewrite (turn_record user host l row tx failed Hrec), Hdup. reflexivity.
Qed.

(** *** Instances and counterexamples *)

Lemma AddFromBuffer_trailing_fragment_witness :
  complete Sample.three_lines = true /\
  count_newlines Sample.bad_stamp = O /\
  AddFromBuffer initDB (Sample.three_lines ++ Sample.bad_stamp) "alice" "laptop" =
  AddFromBuffer initDB Sample.three_lines "alice" "laptop".
Proof.
  assert (H1 : complete Sample.three_lines = true) by reflexivity.
  assert (H2 : count_newlines Sample.bad_stamp = O) by reflexivity.
  split; [exact H1 | split; [exact H2|]].
  exact (proj1 (AddFromBuffer_trailing_fragment
                  initDB Sample.three_lines Sample.bad_stamp "alice" "laptop" H1 H2)).
Defined.

Lemma AddFromBuffer_bad_timestamp_witness :
  complete Sample.ls_line = true /\
  is_line Sample.bad_stamp_line = true /\
  matches Sample.bad_stamp_line = true /\
  stamp_of Sample.bad_stamp_line = Err (parse_error "2015-13-01T10:00:00+0200") /\
  exists e',
    AddFromBuffer initDB (Sample.ls_line ++ Sample.bad_stamp_line ++ Sample.cd_line)
      "alice" "laptop" = Some ("", Some e', initDB).
Proof.
  assert (H1 : complete Sample.ls_line = true) by reflexivity.
  assert (H2 : is_line Sample.bad_stamp_line = true) by reflexivity.
  assert (H3 : matches Sample.bad_stamp_line = true) by reflexivity.
  assert (H4 : stamp_of Sample.bad_stamp_line =
               Err (parse_error "2015-13-01T10:00:00+0200")) by reflexivity.
  repeat (split; [assumption|]).
  exact (AddFromBuffer_bad_timestamp initDB Sample.ls_line Sample.bad_stamp_line
           Sample.cd_line "alice" "laptop" _ H1 H2 H3 H4).
Defined.

(** C4 as stated fails on a last line without its newline: the line matches
    the pattern, its timestamp does not parse, and the import returns a
    summary, no error, and keeps the record of the line before it. *)
Lemma AddFromBuffer_bad_timestamp_unterminated :
  matches Sample.bad_stamp = true /\
  stamp_of Sample.bad_stamp = Err (parse_error "2015-13-01T10:00:00+0200") /\
  AddFromBuffer initDB (Sample.ls_line ++ Sample.bad_stamp) "alice" "laptop" =
  Some ("Processed 1 entries, successful 1, failed 0.", None,
        set_history initDB [Sample.ls_row]).
Proof. repeat split; reflexivity. Qed.

Lemma AddFromBuffer_ten_and_three_witness :
  history initDB = [] /\
  Forall (fun l => is_line l = true) Sample.thirteen /\
  Forall (fun l => well_formed l = true \/ matches l = false) Sample.thirteen /\
  List.length (filter well_formed Sample.thirteen) = 10%nat /\
  List.length (filter (fun l => negb (matches l)) Sample.thirteen) = 3%nat /\
  distinct_keys (records_of "alice" "laptop" Sample.thirteen) = true /\
  AddFromBuffer initDB (String.concat "" Sample.thirteen) "alice" "laptop" =
  Some ("Processed 13 entries, successful 10, failed 3.", None,
        set_history initDB (records_of "alice" "laptop" Sample.thirteen)).
Proof.
  assert (H1 : history initDB = []) by reflexivity.
  assert (H2 : Forall (fun l => is_line l = true) Sample.thirteen)
    by (repeat constructor).
  assert (H3 : Forall (fun l => well_formed l = true \/ matches l = false) Sample.thirteen)
    by (repeat (constructor; [first [left; reflexivity | right; reflexivity]|]);
        constructor).
  assert (H4 : List.length (filter well_formed Sample.thirteen) = 10%nat) by reflexivity.
  assert (H5 : List.length (filter (fun l => negb (matches l)) Sample.thirteen) = 3%nat)
    by reflexivity.
  assert (H6 : distinct_keys (records_of "alice" "laptop" Sample.thirteen) = true)
    by reflexivity.
  repeat (split; [assumption|]).
  exact (proj1 (AddFromBuffer_ten_and_three initDB Sample.thirteen "alice" "laptop"
                  H1 H2 H3 H4 H5 H6)).
Defined.

(** C5 as stated fails when two of the ten well-formed lines carry the same
    command and timestamp: the second meets the key of the first. *)
Lemma AddFromBuffer_ten_and_three_repeat :
  history initDB = [] /\
  Forall (fun l => is_line l = true) Sample.thirteen_repeat /\
  Forall (fun l => well_formed l = true \/ matches l = false) Sample.thirteen_repeat /\
  List.length (filter well_formed Sample.thirteen_repeat) = 10%nat /\
  List.length (filter (fun l => negb (matches l)) Sample.thirteen_repeat) = 3%nat /\
  exists d',
    AddFromBuffer initDB (String.concat "" Sample.thirteen_repeat) "alice" "laptop" =
    Some ("Processed 13 entries, successful 9, failed 4.", None, d') /\
    List.length (history d') = 9%nat.
Proof.
  split; [reflexivity|].
  split; [repeat constructor|].
  split; [repeat (constructor; [first [left; reflexivity | right; reflexivity]|]);
          constructor|].
  split; [reflexivity|]. split; [reflexivity|].
  eexists. split; reflexivity.
Qed.

Lemma AddFromBuffer_twice_witness :
  Forall (fun l => well_formed l = true) (lines_of Sample.three_lines) /\
  exists new,
    AddFromBuffer (set_history initDB (history initDB ++ new)) Sample.three_lines
      "alice" "laptop" =
    Some (Sprintf_stats 3 0 3, None, set_history initDB (history initDB ++ new)).
Proof.
  assert (H : Forall (fun l => well_formed l = true) (lines_of Sample.three_lines))
    by (repeat constructor).
  split; [exact H|].
  destruct (AddFromBuffer_twice initDB Sample.three_lines "alice" "laptop" H)
    as (new & failed1 & _ & _ & _ & Hsecond & _).
  exists new. exact Hsecond.
Defined.

(** C3 as stated fails on a well-formed text with the same command twice in
    one second: the first run inserts one row and the second run reports two
    failed. *)
Lemma AddFromBuffer_twice_repeated :
  Forall (fun l => well_formed l = true) (lines_of Sample.repeated) /\
  AddFromBuffer initDB Sample.repeated "alice" "laptop" =
  Some ("Processed 2 entries, successful 1, failed 1.", None,
        set_history initDB [Sample.ls_row]) /\
  AddFromBuffer (set_history initDB [Sample.ls_row]) Sample.repeated "alice" "laptop" =
  Some ("Processed 2 entries, successful 0, failed 2.", None,
        set_history initDB [Sample.ls_row]).
Proof. split; [repeat constructor | split; reflexivity]. Qed.

(* ===================================================================== *)
(** * Properties of migrate and of the view connections *)

Section Migrate.

Lemma find_version_updated (value : string) (l : list (string * string)) (k v : string) :
  find (fun kv => LIKE (fst kv) "version") l = Some (k, v) ->
  find (fun kv => LIKE (fst kv) "version")
       (map (fun kv => if LIKE (fst kv) "version" then (fst kv, value) else kv) l)
  = Some (k, value).
Proof.
  induction l as [|[k0 v0] l IH]; cbn [find map fst]; [discriminate|].
  destruct (LIKE k0 "version") eqn:Hk; cbn [fst]; rewrite Hk.
  - intros [= -> _]. reflexivity.
  - exact IH.
Qed.

Lemma select_version_updated (value v : string) (d d' : Database) :
  select_version d = Ok v ->
  update_version value d = Ok d' ->
  select_version d' = Ok value.
Proof.
  unfold select_version, update_version. intros Hv [= <-]. cbn [admin].
  destruct (find _ (admin d)) as [[k v0]|] eqn:Hf; [|discriminate].
  rewrite (find_version_updated value _ k v0 Hf). reflexivity.
Qed.

Lemma not_in_datetimes (t : string) (rows : list ConnRow) :
  ~ In t (map c_datetime rows) ->
  existsb (fun x => String.eqb (c_datetime x) t) rows = false.
Proof.
  induction rows as [|x rows IH]; cbn [map In existsb]; [reflexivity|].
  intros Hn. rewrite IH by tauto.
  destruct (String.eqb_spec (c_datetime x) t) as [Heq|]; [tauto | reflexivity].
Qed.

(** copying rows with distinct datetimes never meets the primary key *)
Lemma insert_conn_rows_distinct (src : list ConnRow) :
  forall dst,
    NoDup (map c_datetime dst ++ map c_datetime src) ->
    insert_conn_rows src dst = Ok (dst ++ map without_embedded src)%list.
Proof.
  induction src as [|row src IH]; intros dst Hnd; cbn [insert_conn_rows map].
  - rewrite app_nil_r. reflexivity.
  - cbn [map] in Hnd.
    rewrite not_in_datetimes.
    + rewrite IH.
      * rewrite <- app_assoc. reflexivity.
      * rewrite map_app, <- app_assoc. exact Hnd.
    + apply NoDup_remove_2 in Hnd. intros Hin. apply Hnd, in_or_app. left. exact Hin.
Qed.

Lemma eval_view_no_lookups (rows : list ConnRow) :
  eval_view LEFT_JOIN_rlookup (map without_embedded rows) [] = map unresolved rows.
Proof.
  induction rows as [|row rows IH]; [reflexivity|].
  cbn [map].
  change (eval_view LEFT_JOIN_rlookup
            (without_embedded row :: map without_embedded rows) [])
    with ([unresolved row]
            ++ eval_view LEFT_JOIN_rlookup (map without_embedded rows) [])%list.
  rewrite IH. reflexivity.
Qed.

(** the migration of a version-1 store goes through, statement by statement *)
Lemma migrate_stmt_version1 (d : Database) (rows : list ConnRow) :
  version1_store d rows ->
  migrate_stmt d =
  Ok {| history := history d; admin := admin d;
        connlog := Some (map without_embedded rows); connlog_new := None;
        rlookup := Some []; connections := Some LEFT_JOIN_rlookup |}.
Proof.
  intros (_ & Hc & Hnd & Hn & Hr & Hv).
  unfold migrate_stmt, create_connlog_new. rewrite Hn. cbn [bind].
  unfold copy_connlog. cbn [connlog connlog_new]. rewrite Hc.
  rewrite (insert_conn_rows_distinct rows []) by exact Hnd. cbn [bind app].
  unfold drop_connlog. cbn [connlog]. cbn [bind].
  unfold rename_connlog_new. cbn [connlog connlog_new bind].
  unfold create_rlookup. cbn [rlookup]. rewrite Hr. cbn [bind].
  unfold create_view. cbn [connections]. rewrite Hv. reflexivity.
Qed.

(** Whatever [migrate] returns, the database keeps the state it had, or has
    all of the migration: the statements of [stmt] and the new version. *)
Lemma migrate_atomic (d d' : Database) (r : option error) :
  migrate d = (d', r) ->
  d' = d \/
  (r = None /\ select_version d = Ok "1" /\
   exists tx, migrate_stmt d = Ok tx /\ update_version VERSION tx = Ok d').
Proof.
  unfold migrate.
  destruct (select_version d) as [version|e]; [|intros [= <- _]; left; reflexivity].
  destruct (String.eqb_spec version "1") as [->|Hne].
  - destruct (migrate_stmt d) as [tx|e] eqn:Hstmt; cbn [bind].
    + intros [= <- <-]. right. repeat split. exists tx. split; reflexivity.
    + intros [= <- _]. left. reflexivity.
  - destruct (negb (String.eqb version VERSION)); intros [= <- _]; left; reflexivity.
Qed.

End Migrate.

(** C6.  A version-1 store with the connection-log rows [rows]: [migrate]
    returns no error; afterwards the recorded version is VERSION, "2", the
    view [connections] yields the rows of [rows], as many, each with a NULL
    reverse lookup, the history is untouched, and running [migrate] again
    changes nothing.  For any store: [migrate] leaves it as it was or with
    the whole migration, schema and version together; it leaves a store at
    the current version as it is, without error; and it returns an error for
    a version that is neither "1" nor "2". *)
Theorem migrate_correct (d : Database) (rows : list ConnRow) :
  version1_store d rows ->
  (exists d',
      migrate d = (d', None) /\
      select_version d' = Ok VERSION /\ VERSION = "2" /\
      select_connections d' = Ok (map unresolved rows) /\
      List.length (map unresolved rows) = List.length rows /\
      history d' = history d /\
      migrate d' = (d', None)) /\
  (forall d0 d1 r,
      migrate d0 = (d1, r) ->
      d1 = d0 \/
      (r = None /\ exists tx, migrate_stmt d0 = Ok tx /\ update_version VERSION tx = Ok d1)) /\
  (forall d0, select_version d0 = Ok VERSION -> migrate d0 = (d0, None)) /\
  (forall d0 v,
      select_version d0 = Ok v -> v <> "1" -> v <> "2" ->
      exists e, migrate d0 = (d0, Some e)).
Proof.
  intros Hv1. split; [|split; [|split]].
  - pose proof (migrate_stmt_version1 d rows Hv1) as Hstmt.
    destruct Hv1 as (Hver & _).
    destruct (update_version VERSION
                {| history := history d; admin := admin d;
                   connlog := Some (map without_embedded rows); connlog_new := None;
                   rlookup := Some []; connections := Some LEFT_JOIN_rlookup |})
      as [d'|e] eqn:Hup; [|discriminate].
    assert (Hver' : select_version d' = Ok VERSION)
      by (eapply select_version_updated; [|exact Hup]; exact Hver).
    exists d'. split; [|split; [|split; [|split; [|split; [|split]]]]].
    + unfold migrate. rewrite Hver. cbn [String.eqb Ascii.eqb Bool.eqb].
      rewrite Hstmt. cbn [bind]. rewrite Hup. reflexivity.
    + exact Hver'.
    + reflexivity.
    + injection Hup as <-. unfold select_connections. cbn [connections connlog rlookup].
      rewrite eval_view_no_lookups. reflexivity.
    + apply length_map.
    + injection Hup as <-. reflexivity.
    + unfold migrate. rewrite Hver'. reflexivity.
  - intros d0 d1 r Hm. destruct (migrate_atomic d0 d1 r Hm) as [-> | (-> & _ & Htx)];
      [left; reflexivity | right; split; [reflexivity | exact Htx]].
  - intros d0 Hver. unfold migrate. rewrite Hver. reflexivity.
  - intros d0 v Hver H1 H2. unfold migrate. rewrite Hver.
    destruct (String.eqb_spec v "1") as [|_]; [contradiction|].
    destruct (String.eqb_spec v VERSION) as [|_]; [contradiction|].
    cbn [negb]. eexists. reflexivity.
Qed.

Lemma migrate_correct_witness :
  version1_store Stores.v1_store [Stores.conn_a; Stores.conn_b] /\
  exists d',
    migrate Stores.v1_store = (d', None) /\
    select_version d' = Ok "2" /\
    select_connections d' =
    Ok [("2015-02-27 18:20:11", "192.0.2.7", None);
        ("2015-02-28 07:02:45", "198.51.100.23", None)].
Proof.
  assert (H : version1_store Stores.v1_store [Stores.conn_a; Stores.conn_b]).
  { repeat split; try reflexivity.
    repeat constructor; cbn; intuition discriminate. }
  split; [exact H|].
  destruct (proj1 (migrate_correct _ _ H)) as (d' & Hm & Hv & _ & Hc & _).
  exists d'. repeat split; assumption.
Defined.

(** C9.  The two definitions of [connections] do not denote the same query.
    Take a store made by [initDB] and a store migrated from version 1, and log
    on each the same connection, whose address has no reverse lookup: the
    tables of the two stores are the same, the view of the first has no row,
    the view of the second has the connection. *)
Theorem connections_fresh_vs_migrated :
  let fresh := LogConn initDB "2015-03-01 10:00:00" "203.0.113.5" in
  let migrated :=
    LogConn (fst (migrate Stores.v1_fresh)) "2015-03-01 10:00:00" "203.0.113.5" in
  connections initDB = Some JOIN_rlookup /\
  connections (fst (migrate Stores.v1_fresh)) = Some LEFT_JOIN_rlookup /\
  select_version fresh = select_version migrated /\
  connlog fresh = connlog migrated /\
  rlookup fresh = rlookup migrated /\
  select_connections fresh = Ok [] /\
  select_connections migrated = Ok [("2015-03-01 10:00:00", "203.0.113.5", None)].
Proof. cbv zeta. repeat split; reflexivity. Qed.

(** the two definitions agree exactly on the connlog rows that have a lookup *)
Lemma eval_view_resolved (c : list ConnRow) (r : list LookupRow) :
  Forall (fun row => lookups (c_remote row) r <> []) c ->
  eval_view JOIN_rlookup c r = eval_view LEFT_JOIN_rlookup c r.
Proof.
  induction 1 as [|row c Hrow _ IH]; [reflexivity|].
  unfold eval_view in *. cbn [flat_map]. rewrite IH.
  destruct (lookups (c_remote row) r); [congruence | reflexivity].
Qed.

(* ===================================================================== *)
(** * Properties of the network package *)

Lemma append_nil_r (s : string) : s ++ "" = s.
Proof. induction s as [|c s IH]; cbn; [reflexivity | rewrite IH; reflexivity]. Qed.

Section NetworkProperties.

Context {codec : Codec}.

Lemma encryptDispatch_sent (key entropy : string) (conn conn' : Conn) (m : Message) :
  encryptDispatch key entropy conn m = (conn', None) ->
  exists encMsg,
    saltsecret_Encrypt key entropy (gob_Encode_Message m) = Ok encMsg /\
    outbox conn' = outbox conn ++ gob_Encode_bytes encMsg /\
    inbox conn' = inbox conn.
Proof.
  unfold encryptDispatch, conn_Write.
  destruct (saltsecret_Encrypt key entropy (gob_Encode_Message m)) as [encMsg|e];
    [|discriminate].
  destruct (write_error conn); [discriminate|].
  intros [= <-]. exists encMsg. repeat split.
Qed.

Lemma encryptDispatch_inbox (key entropy : string) (conn : Conn) (m : Message) :
  inbox (fst (encryptDispatch key entropy conn m)) = inbox conn.
Proof.
  unfold encryptDispatch, conn_Write.
  destruct (saltsecret_Encrypt _ _ _); [|reflexivity].
  destruct (write_error conn); reflexivity.
Qed.

Lemma receiveDecrypt_outbox (key : string) (conn : Conn) :
  outbox (fst (receiveDecrypt key conn)) = outbox conn.
Proof.
  unfold receiveDecrypt.
  destruct (gob_Decode_bytes (inbox conn)) as [[encMsg rest]|e]; [|reflexivity].
  destruct (saltsecret_Decrypt key encMsg) as [p|e]; [|reflexivity].
  destruct (gob_Decode_Message p); reflexivity.
Qed.

(** what [receiveDecrypt] returns depends on the connection through the
    bytes to read only *)
Lemma receiveDecrypt_inbox (key : string) (c1 c2 : Conn) :
  inbox c1 = inbox c2 -> snd (receiveDecrypt key c1) = snd (receiveDecrypt key c2).
Proof.
  unfold receiveDecrypt. intros ->.
  destruct (gob_Decode_bytes (inbox c2)) as [[encMsg rest]|e]; [|reflexivity].
  destruct (saltsecret_Decrypt key encMsg) as [p|e]; [|reflexivity].
  destruct (gob_Decode_Message p); reflexivity.
Qed.

End NetworkProperties.

(** C1.  With libraries that keep their promises: when [encryptDispatch]
    sends [m] under [key] on a connection, [receiveDecrypt] under the same key
    at the other end, where the bytes written arrive, returns [m] and no
    error, and has read all of them. *)
Theorem receiveDecrypt_encryptDispatch
    (codec : Codec) (laws : CodecLaws codec)
    (key entropy : string) (sender sender' receiver : Conn) (m : Message) :
  outbox sender = "" ->
  encryptDispatch key entropy sender m = (sender', None) ->
  inbox receiver = outbox sender' ->
  snd (receiveDecrypt key receiver) = (m, None) /\
  inbox (fst (receiveDecrypt key receiver)) = "".
Proof.
  intros Hempty Hsend Hwire.
  destruct (encryptDispatch_sent key entropy sender sender' m Hsend)
    as (encMsg & Henc & Hout & _).
  rewrite Hempty in Hout. cbn [append] in Hout.
  unfold receiveDecrypt. rewrite Hwire, Hout.
  rewrite <- (append_nil_r (gob_Encode_bytes encMsg)), Decode_Encode_bytes.
  rewrite (Decrypt_Encrypt key entropy _ _ Henc), Decode_Encode_Message.
  split; reflexivity.
Qed.

(** *** The reference codec keeps the promises *)

Module ReferenceLaws.
Import Reference.

Lemma unframe_frame (b rest : string) : unframe (frame b ++ rest) = Some (b, rest).
Proof.
  induction b as [|c b IH]; [reflexivity|].
  cbn [frame append unframe]. cbn [Ascii.eqb Bool.eqb].
  rewrite IH. reflexivity.
Qed.

Lemma unframe_frame_end (b : string) : unframe (frame b) = Some (b, "").
Proof. rewrite <- (append_nil_r (frame b)). apply unframe_frame. Qed.

Lemma length_tally (n : nat) : String.length (tally n) = n.
Proof. induction n as [|n IH]; cbn; [reflexivity | rewrite IH; reflexivity]. Qed.

Lemma unframe_int_frame_int (k : Z) (rest : string) :
  unframe_int (frame_int k ++ rest) = Some (k, rest).
Proof.
  unfold frame_int, unframe_int.
  destruct (Z.ltb_spec k 0) as [Hneg|Hpos]; cbn [append];
    rewrite unframe_frame, length_tally; cbn [Ascii.eqb Bool.eqb];
    do 2 f_equal; lia.
Qed.

Lemma Decode_Encode (m : Message) : Decode_Message (Encode_Message m) = Ok m.
Proof.
  destruct m as [ty payload user hostname [quser qhost qcommand kappa format]].
  unfold Decode_Message, Encode_Message.
  cbn [Type_ Payload User Hostname QParams
       conf.User conf.Host conf.Command conf.Kappa conf.Format].
  rewrite !unframe_frame, unframe_int_frame_int, unframe_frame_end.
  reflexivity.
Qed.

Lemma Decrypt_Encrypt_ref (key entropy p c : string) :
  Encrypt key entropy p = Ok c -> Decrypt key c = Ok p.
Proof.
  unfold Encrypt, Decrypt. intros [= <-].
  rewrite !unframe_frame, String.eqb_refl. reflexivity.
Qed.

Lemma laws : CodecLaws codec.
Proof.
  split.
  - exact Decode_Encode.
  - intros b rest. cbn [gob_Decode_bytes gob_Encode_bytes codec].
    unfold Decode_bytes. rewrite unframe_frame. reflexivity.
  - exact Decrypt_Encrypt_ref.
Qed.

End ReferenceLaws.

#[local] Existing Instance Reference.codec.
#[local] Existing Instance Reference.no_rows.

Lemma receiveDecrypt_encryptDispatch_witness :
  let sender := Reference.receiving "" in
  let sender' := fst (encryptDispatch "secret" "salt" sender Reference.import_request) in
  let receiver := Reference.receiving (outbox sender') in
  outbox sender = "" /\
  encryptDispatch "secret" "salt" sender Reference.import_request = (sender', None) /\
  inbox receiver = outbox sender' /\
  snd (receiveDecrypt "secret" receiver) = (Reference.import_request, None).
Proof.
  cbv zeta.
  repeat (split; [reflexivity|]).
  exact (proj1 (receiveDecrypt_encryptDispatch Reference.codec ReferenceLaws.laws
                  "secret" "salt" (Reference.receiving "")
                  (fst (encryptDispatch "secret" "salt" (Reference.receiving "")
                          Reference.import_request))
                  (Reference.receiving
                     (Reference.wire "secret" "salt" Reference.import_request))
                  Reference.import_request eq_refl eq_refl eq_refl)).
Defined.

Section Handler.

Context {codec : Codec} {db_queries : Queries}.

Lemma handleConn_switch_total (msg : Message) (db : Database) :
  exists r, handleConn_switch msg db = Some r.
Proof.
  unfold handleConn_switch.
  destruct (String.eqb (Type_ msg) HISTORY).
  - destruct (AddFromBuffer_total (User msg) (Hostname msg) db (Payload msg))
      as [[[res [e|]] db'] ->]; eexists; reflexivity.
  - destruct (String.eqb (Type_ msg) STATS).
    + destruct (TopK (all_stats 20) db) as [res1 [e|]]; [eexists; reflexivity|].
      destruct (LastK (all_stats 10) db) as [res2 [e|]]; eexists; reflexivity.
    + destruct (String.eqb (Type_ msg) QUERY); [|eexists; reflexivity].
      destruct (RunQuery (QParams msg) db) as [res [e|]]; eexists; reflexivity.
Qed.

(** [handleConn] returns on every connection *)
Lemma handleConn_total (key entropy : string) (conn : Conn) (db : Database) :
  exists r, handleConn key entropy conn db = Some r.
Proof.
  unfold handleConn.
  destruct (receiveDecrypt key conn) as [conn1 [msg [e|]]]; [eexists; reflexivity|].
  destruct (handleConn_switch_total msg db) as [[result db'|e] ->].
  - destruct (encryptDispatch key entropy conn1 _). eexists; reflexivity.
  - eexists; reflexivity.
Qed.

End Handler.

(** C2.  What the code does for a STATS message whose two store queries
    succeed, with the results [res1] and [res2]: the reply it dispatches is
    the RESULT message with the empty payload, whatever [res1] and [res2]
    are; the concatenation is built in a variable of the case clause. *)
Theorem handleConn_STATS_reply
    (codec : Codec) (db_queries : Queries)
    (key entropy : string) (conn conn1 : Conn) (msg : Message) (db : Database)
    (res1 res2 : string) :
  receiveDecrypt key conn = (conn1, (msg, None)) ->
  Type_ msg = STATS ->
  TopK (all_stats 20) db = (res1, None) ->
  LastK (all_stats 10) db = (res2, None) ->
  handleConn key entropy conn db =
  Some (conn_Close
          (fst (encryptDispatch key entropy conn1
                  {| Type_ := RESULT; Payload := ""; User := ""; Hostname := "";
                     QParams := QueryParams_zero |})),
        db, false).
Proof.
  intros Hrecv Hty Htop Hlast.
  unfold handleConn, handleConn_switch. rewrite Hrecv, Hty, Htop, Hlast.
  cbn [String.eqb]. change (String.eqb STATS HISTORY) with false.
  change (String.eqb STATS STATS) with true. cbv iota zeta.
  destruct (encryptDispatch key entropy conn1 _) as [conn2 err]. reflexivity.
Qed.

(** the instance of C2 on the reference codec: the two queries answer with
    their header lines, and the reply that reaches the client carries no
    byte of them *)
Lemma handleConn_STATS_reply_witness :
  let conn := Reference.receiving (Reference.wire "secret" "salt" Reference.stats_request) in
  TopK (all_stats 20) initDB = ("Top-20 commands:", None) /\
  LastK (all_stats 10) initDB = ("Last 10 commands:", None) /\
  exists conn',
    handleConn "secret" "entropy" conn initDB = Some (conn', initDB, false) /\
    snd (receiveDecrypt "secret" (Reference.receiving (outbox conn'))) =
    ({| Type_ := RESULT; Payload := ""; User := ""; Hostname := "";
        QParams := QueryParams_zero |}, None).
Proof.
  cbv zeta. split; [reflexivity | split; [reflexivity|]].
  eexists. split.
  - exact (handleConn_STATS_reply Reference.codec Reference.no_rows "secret" "entropy"
             (Reference.receiving (Reference.wire "secret" "salt" Reference.stats_request))
             (Reference.receiving "") Reference.stats_request initDB
             "Top-20 commands:" "Last 10 commands:" eq_refl eq_refl eq_refl eq_refl).
  - reflexivity.
Defined.

(** C8.  When [receiveDecrypt] fails on a connection, [handleConn] returns
    with the connection closed and not a byte written to it, and the database
    as it was; the process goes on. *)
Theorem handleConn_silent
    (codec : Codec) (db_queries : Queries)
    (key entropy : string) (conn : Conn) (db : Database) (m : Message) (err : error) :
  snd (receiveDecrypt key conn) = (m, Some err) ->
  exists conn',
    handleConn key entropy conn db = Some (conn', db, false) /\
    outbox conn' = outbox conn /\
    closed conn' = true.
Proof.
  intros Hrecv. unfold handleConn.
  pose proof (receiveDecrypt_outbox key conn) as Hout.
  destruct (receiveDecrypt key conn) as [conn1 [msg [e|]]]; [|discriminate].
  exists (conn_Close conn1). repeat split. exact Hout.
Qed.

Lemma handleConn_silent_witness :
  let forged := Reference.receiving (Reference.wire "guess" "salt" Reference.import_request) in
  snd (receiveDecrypt "secret" forged) =
    (Message_zero, Some (errorString "saltsecret: decryption failed")) /\
  exists conn',
    handleConn "secret" "entropy" forged initDB = Some (conn', initDB, false) /\
    outbox conn' = "" /\ closed conn' = true.
Proof.
  cbv zeta. split; [reflexivity|].
  exact (handleConn_silent Reference.codec Reference.no_rows "secret" "entropy"
           (Reference.receiving (Reference.wire "guess" "salt" Reference.import_request))
           initDB Message_zero (errorString "saltsecret: decryption failed") eq_refl).
Defined.

(** C7, as amended.  In an import, stats or query session whose request is
    sent and whose reply decodes: when the type of the reply is not RESULT,
    [ClientMode] prints nothing and returns no error. *)
Theorem ClientMode_reply_not_RESULT
    (codec : Codec) (cfg : Config) (entropy history : string)
    (conn : Conn) (reply : Message) :
  conf_Operation cfg <> conf.OP_other ->
  write_error conn = None ->
  (forall p, exists c, saltsecret_Encrypt (conf_Key cfg) entropy p = Ok c) ->
  snd (receiveDecrypt (conf_Key cfg) conn) = (reply, None) ->
  Type_ reply <> RESULT ->
  ClientMode cfg entropy (Ok conn) (Ok history) = (None, []).
Proof.
  intros Hop Hwr Henc Hrecv Hty.
  assert (Hexchange : forall msg,
             exists conn1 conn2,
               encryptDispatch (conf_Key cfg) entropy conn msg = (conn1, None) /\
               receiveDecrypt (conf_Key cfg) conn1 = (conn2, (reply, None))).
  { intros msg.
    pose proof (encryptDispatch_inbox (conf_Key cfg) entropy conn msg) as Hin.
    unfold encryptDispatch, conn_Write in *.
    destruct (Henc (gob_Encode_Message msg)) as [c Hc]. rewrite Hc, Hwr in *.
    cbn [fst] in Hin.
    eexists. exists (fst (receiveDecrypt (conf_Key cfg)
                            {| inbox := inbox conn;
                               outbox := outbox conn ++ gob_Encode_bytes c;
                               write_error := None; closed := closed conn |})).
    split; [reflexivity|].
    rewrite (surjective_pairing (receiveDecrypt _ _)). f_equal.
    rewrite <- Hrecv. apply receiveDecrypt_inbox. reflexivity. }
  assert (Hnot : String.eqb (Type_ reply) RESULT = false)
    by (apply String.eqb_neq; exact Hty).
  unfold ClientMode.
  destruct (conf_Operation cfg); try contradiction;
    match goal with
    | |- context [encryptDispatch _ _ _ ?msg] =>
        destruct (Hexchange msg) as (conn1 & conn2 & -> & ->)
    end; rewrite Hnot; reflexivity.
Qed.

Lemma ClientMode_reply_not_RESULT_witness :
  let conn := Stores.reply_of Reference.stats_request in
  conf_Operation Reference.stats_config <> conf.OP_other /\
  snd (receiveDecrypt "secret" conn) = (Reference.stats_request, None) /\
  Type_ Reference.stats_request <> RESULT /\
  ClientMode Reference.stats_config "entropy" (Ok conn) (Ok "") = (None, []).
Proof.
  cbv zeta.
  assert (H1 : conf_Operation Reference.stats_config <> conf.OP_other) by discriminate.
  assert (H2 : Type_ Reference.stats_request <> RESULT) by discriminate.
  split; [exact H1 | split; [reflexivity | split; [exact H2|]]].
  apply (ClientMode_reply_not_RESULT Reference.codec Reference.stats_config "entropy" ""
           (Stores.reply_of Reference.stats_request) Reference.stats_request H1 eq_refl).
  - intros p. eexists. reflexivity.
  - reflexivity.
  - exact H2.
Defined.

(** C7 as stated fails: the reply decodes, its type is "stats", and the
    session ends without an error and without output. *)
Lemma ClientMode_silent_success :
  let conn := Stores.reply_of Reference.stats_request in
  snd (receiveDecrypt "secret" conn) = (Reference.stats_request, None) /\
  Type_ Reference.stats_request = "stats" /\
  RESULT = "result" /\
  ClientMode Reference.stats_config "entropy" (Ok conn) (Ok "") = (None, []).
Proof. cbv zeta. repeat split; reflexivity. Qed.

(* ===================================================================== *)
(** * Further properties of AddFromBuffer *)

Section ImportMore.

Variables user host : string.

Lemma tolerated_false (l : string) :
  tolerated l = false -> matches l = true /\ exists e, stamp_of l = Err e.
Proof.
  unfold tolerated. destruct (matches l); cbn [negb orb]; [|discriminate].
  destruct (stamp_of l) as [t|e]; [discriminate|]. intros _. split; eauto.
Qed.

Lemma turn_Return (l : string) (tx : list HistoryRow) (failed : Z) (e : error) :
  AddFromBuffer_turn user host l tx failed = Return e ->
  matches l = true /\ stamp_of l = Err e.
Proof.
  destruct (tolerated l) eqn:Ht.
  - destruct (turn_tolerated user host l tx failed Ht) as [[_ ->] | [row [_ ->]]];
      [discriminate|]. destruct (existsb _ tx); discriminate.
  - destruct (tolerated_false l Ht) as [Hm [e' He']].
    rewrite (turn_fatal user host l e' tx failed Hm He'). intros [= <-]. auto.
Qed.

(** an import that returns no error met tolerated lines only *)
Lemma import_lines_Ok (ls : list string) :
  forall tx failed tx' failed',
    import_lines user host ls tx failed = Ok (tx', failed') ->
    Forall (fun l => tolerated l = true) ls.
Proof.
  induction ls as [|l ls IH]; intros tx failed tx' failed' H; [constructor|].
  cbn [import_lines] in H.
  destruct (AddFromBuffer_turn user host l tx failed) as [tx1 f1|e] eqn:Hturn;
    [|discriminate].
  constructor; [|eapply IH; exact H].
  destruct (tolerated l) eqn:Ht; [reflexivity|].
  destruct (tolerated_false l Ht) as [Hm [e He]].
  rewrite (turn_fatal user host l e tx failed Hm He) in Hturn. discriminate.
Qed.

(** an import that returns an error met a line whose timestamp does not
    parse, and returns the error of that parse *)
Lemma import_lines_Err (ls : list string) :
  forall tx failed e,
    import_lines user host ls tx failed = Err e ->
    exists l, In l ls /\ matches l = true /\ stamp_of l = Err e.
Proof.
  induction ls as [|l ls IH]; intros tx failed e H; [discriminate|].
  cbn [import_lines] in H.
  destruct (AddFromBuffer_turn user host l tx failed) as [tx1 f1|e1] eqn:Hturn.
  - destruct (IH _ _ _ H) as (l0 & Hin & Hm & Hs). exists l0. split; [right|]; auto.
  - injection H as <-. exists l. split; [left; reflexivity|].
    eapply turn_Return; exact Hturn.
Qed.

(** every row an import appends is the record of one of the lines *)
Lemma import_lines_new (ls : list string) :
  forall tx failed tx' failed',
    import_lines user host ls tx failed = Ok (tx', failed') ->
    exists new,
      tx' = (tx ++ new)%list /\
      Forall (fun row => exists l, In l ls /\ record_of user host l = Some row) new.
Proof.
  induction ls as [|l ls IH]; intros tx failed tx' failed' H.
  - injection H as <- _. exists []. split; [symmetry; apply app_nil_r | constructor].
  - pose proof (import_lines_Ok _ _ _ _ _ H) as Htol.
    apply Forall_inv in Htol. cbn [import_lines] in H.
    destruct (turn_tolerated user host l tx failed Htol) as [[_ Ht] | [row [Hrec Ht]]];
      rewrite Ht in H; clear Ht.
    + destruct (IH _ _ _ _ H) as (new & -> & Hnew). exists new. split; [reflexivity|].
      eapply Forall_impl; [|exact Hnew]. cbn beta.
      intros r (l0 & Hin & Hr). exists l0. split; [right|]; assumption.
    + destruct (existsb (same_key row) tx).
      * destruct (IH _ _ _ _ H) as (new & -> & Hnew). exists new. split; [reflexivity|].
        eapply Forall_impl; [|exact Hnew]. cbn beta.
        intros r (l0 & Hin & Hr). exists l0. split; [right|]; assumption.
      * destruct (IH _ _ _ _ H) as (new & -> & Hnew). exists (row :: new).
        split; [rewrite <- app_assoc; reflexivity|].
        constructor; [exists l; split; [left; reflexivity | exact Hrec]|].
        eapply Forall_impl; [|exact Hnew]. cbn beta.
        intros r (l0 & Hin & Hr). exists l0. split; [right|]; assumption.
Qed.

Lemma record_of_user_host (l : string) (row : HistoryRow) :
  record_of user host l = Some row -> h_user row = user /\ h_host row = host.
Proof.
  unfold record_of. destruct (matches l); [|discriminate].
  destruct (stamp_of l); [|discriminate]. intros [= <-]. split; reflexivity.
Qed.

(** *** The primary key stays a key *)

Lemma distinct_keys_snoc (tbl : list HistoryRow) (row : HistoryRow) :
  distinct_keys tbl = true -> existsb (same_key row) tbl = false ->
  distinct_keys (tbl ++ [row]) = true.
Proof.
  induction tbl as [|x tbl IH]; cbn [app distinct_keys existsb]; [reflexivity|].
  rewrite andb_true_iff, negb_true_iff, orb_false_iff.
  intros [Hx Hd] [Hrx Hr]. rewrite (IH Hd Hr), andb_true_r, negb_true_iff, existsb_app.
  cbn [existsb]. rewrite Hx, same_key_sym, Hrx. reflexivity.
Qed.

Lemma turn_distinct_keys (l : string) (tx tx' : list HistoryRow) (failed failed' : Z) :
  AddFromBuffer_turn user host l tx failed = Continue tx' failed' ->
  distinct_keys tx = true -> distinct_keys tx' = true.
Proof.
  intros Hturn Hd. destruct (tolerated l) eqn:Ht.
  - destruct (turn_tolerated user host l tx failed Ht) as [[_ H] | [row [_ H]]];
      rewrite H in Hturn.
    + injection Hturn as <- _. exact Hd.
    + destruct (existsb (same_key row) tx) eqn:Hdup; injection Hturn as <- _;
        [exact Hd | apply distinct_keys_snoc; assumption].
  - destruct (tolerated_false l Ht) as [Hm [e He]].
    rewrite (turn_fatal user host l e tx failed Hm He) in Hturn. discriminate.
Qed.

Lemma import_lines_distinct_keys (ls : list string) :
  forall tx failed tx' failed',
    import_lines user host ls tx failed = Ok (tx', failed') ->
    distinct_keys tx = true -> distinct_keys tx' = true.
Proof.
  induction ls as [|l ls IH]; intros tx failed tx' failed' H Hd.
  - injection H as <- _. exact Hd.
  - cbn [import_lines] in H.
    destruct (AddFromBuffer_turn user host l tx failed) as [tx1 f1|e] eqn:Hturn;
      [|discriminate].
    eapply IH; [exact H|]. eapply turn_distinct_keys; eassumption.
Qed.

(** *** Lines one after the other *)

Lemma import_lines_app (l1 l2 : list string) :
  forall tx failed,
    import_lines user host (l1 ++ l2) tx failed =
    match import_lines user host l1 tx failed with
    | Ok (tx1, failed1) => import_lines user host l2 tx1 failed1
    | Err e => Err e
    end.
Proof.
  induction l1 as [|l l1 IH]; intros tx failed; [reflexivity|].
  cbn [app import_lines].
  destruct (AddFromBuffer_turn user host l tx failed) as [tx1 f1|e]; [apply IH | reflexivity].
Qed.

(** the failed counter is only added to *)
Lemma import_lines_shift (ls : list string) :
  forall tx failed,
    import_lines user host ls tx failed =
    match import_lines user host ls tx 0 with
    | Ok (tx', failed') => Ok (tx', failed + failed')
    | Err e => Err e
    end.
Proof.
  assert (Hturn : forall l tx failed,
             AddFromBuffer_turn user host l tx failed =
             match AddFromBuffer_turn user host l tx 0 with
             | Continue tx' f' => Continue tx' (failed + f')
             | Return e => Return e
             end).
  { intros l tx failed. unfold AddFromBuffer_turn.
    destruct (negb _); [f_equal; lia|].
    destruct (time_Parse _ _) as [t|e]; [|reflexivity].
    destruct (insert_Exec _ _ _ _ _) as [tx'|[|[]|]]; try reflexivity; f_equal; lia. }
  induction ls as [|l ls IH]; intros tx failed.
  - cbn [import_lines]. rewrite Z.add_0_r. reflexivity.
  - cbn [import_lines]. rewrite (Hturn l tx failed).
    destruct (AddFromBuffer_turn user host l tx 0) as [tx1 f1|e]; [|reflexivity].
    rewrite (IH tx1 (failed + f1)), (IH tx1 f1).
    destruct (import_lines user host ls tx1 0) as [[tx2 f2]|e]; [|reflexivity].
    do 2 f_equal. lia.
Qed.

End ImportMore.

(** X1.  Whenever [AddFromBuffer] returns a summary: the total is the number
    of newlines of the input and splits into successful and failed, the
    database differs from the one before by rows appended to [history], and
    there are as many of them as the summary calls successful. *)
Theorem AddFromBuffer_summary
    (d d' : Database) (r : Reader) (user host stats : string) :
  AddFromBuffer d r user host = Some (stats, None, d') ->
  exists (new : list HistoryRow) (failed : Z),
    let total := Z.of_nat (count_newlines r) in
    stats = Sprintf_stats total (total - failed) failed /\
    0 <= failed <= total /\
    Z.of_nat (List.length new) = total - failed /\
    d' = set_history d (history d ++ new).
Proof.
  rewrite AddFromBuffer_lines.
  destruct (import_lines user host (lines_of r) (history d) 0) as [[tx failed]|e] eqn:Hrun;
    [|discriminate].
  intros [= <- <-].
  pose proof (import_lines_Ok user host _ _ _ _ _ Hrun) as Htol.
  destruct (import_lines_tolerated user host _ Htol (history d) 0)
    as (new & f' & Hrun' & Hlen & Hle & _).
  rewrite Hrun in Hrun'. injection Hrun' as -> ->.
  rewrite length_lines_of in Hlen.
  exists new, f'. cbv zeta. repeat split; try lia.
Qed.

Lemma AddFromBuffer_summary_witness :
  exists (new : list HistoryRow) (failed : Z),
    let total := Z.of_nat (count_newlines Sample.repeated) in
    "Processed 2 entries, successful 1, failed 1." =
      Sprintf_stats total (total - failed) failed /\
    0 <= failed <= total /\
    Z.of_nat (List.length new) = total - failed /\
    set_history initDB [Sample.ls_row] = set_history initDB (history initDB ++ new).
Proof.
  exact (AddFromBuffer_summary initDB (set_history initDB [Sample.ls_row])
           Sample.repeated "alice" "laptop"
           "Processed 2 entries, successful 1, failed 1." eq_refl).
Defined.

Lemma AddFromBuffer_Err_inv
    (d d' : Database) (r : Reader) (user host stats : string) (e : error) :
  AddFromBuffer d r user host = Some (stats, Some e, d') ->
  stats = "" /\ d' = d /\
  exists l, In l (lines_of r) /\ matches l = true /\ stamp_of l = Err e.
Proof.
  rewrite AddFromBuffer_lines.
  destruct (import_lines user host (lines_of r) (history d) 0) as [[tx failed]|e'] eqn:Hrun;
    [discriminate|].
  intros [= <- <- <-]. repeat split.
  eapply import_lines_Err. exact Hrun.
Qed.

(** X2.  Whenever [AddFromBuffer] returns an error: it returns no summary,
    the database is the one before, and the error is the one [time.Parse]
    gave for the timestamp of a newline-terminated line of the input that
    matches the pattern. *)
Theorem AddFromBuffer_error
    (d d' : Database) (r : Reader) (user host stats : string) (e : error) :
  AddFromBuffer d r user host = Some (stats, Some e, d') ->
  stats = "" /\ d' = d /\
  exists l, In l (lines_of r) /\ matches l = true /\ stamp_of l = Err e.
Proof. apply AddFromBuffer_Err_inv. Qed.

Lemma AddFromBuffer_error_witness :
  let r := Sample.ls_line ++ Sample.bad_stamp_line in
  AddFromBuffer initDB r "alice" "laptop" =
    Some ("", Some (parse_error "2015-13-01T10:00:00+0200"), initDB) /\
  exists l, In l (lines_of r) /\ matches l = true /\
            stamp_of l = Err (parse_error "2015-13-01T10:00:00+0200").
Proof.
  cbv zeta. split; [reflexivity|].
  exact (proj2 (proj2 (AddFromBuffer_error initDB initDB
                         (Sample.ls_line ++ Sample.bad_stamp_line) "alice" "laptop" ""
                         (parse_error "2015-13-01T10:00:00+0200") eq_refl))).
Defined.

(** X3.  [AddFromBuffer] returns an error exactly when a newline-terminated
    line of the input matches the pattern and has a timestamp that does not
    parse; lines that do not match never make it fail. *)
Theorem AddFromBuffer_error_iff (d : Database) (r : Reader) (user host : string) :
  (exists stats e d', AddFromBuffer d r user host = Some (stats, Some e, d')) <->
  Exists (fun l => matches l = true /\ exists e, stamp_of l = Err e) (lines_of r).
Proof.
  split.
  - intros (stats & e & d' & H).
    destruct (AddFromBuffer_Err_inv _ _ _ _ _ _ _ H) as (_ & _ & l & Hin & Hm & Hs).
    apply Exists_exists. exists l. split; [exact Hin | split; [exact Hm | eauto]].
  - intros H. apply Exists_exists in H as (l & Hin & Hm & e & Hs).
    rewrite AddFromBuffer_lines.
    destruct (import_lines_fatal user host _ (history d) 0 l e Hin Hm Hs) as [e' ->].
    exists "", e', d. reflexivity.
Qed.

(** X4.  [AddFromBuffer] keeps the primary key of [history] a key: when no
    two rows share (user, command, datetime) before, none do afterwards. *)
Theorem AddFromBuffer_keeps_key
    (d d' : Database) (r : Reader) (user host stats : string) (err : option error) :
  distinct_keys (history d) = true ->
  AddFromBuffer d r user host = Some (stats, err, d') ->
  distinct_keys (history d') = true.
Proof.
  intros Hd. rewrite AddFromBuffer_lines.
  destruct (import_lines user host (lines_of r) (history d) 0) as [[tx failed]|e] eqn:Hrun.
  - intros [= _ _ <-]. cbn [history set_history].
    eapply import_lines_distinct_keys; eassumption.
  - intros [= _ _ <-]. exact Hd.
Qed.

Lemma AddFromBuffer_keeps_key_witness :
  distinct_keys (history initDB) = true /\
  distinct_keys (history (set_history initDB [Sample.ls_row])) = true.
Proof.
  split; [reflexivity|].
  exact (AddFromBuffer_keeps_key initDB (set_history initDB [Sample.ls_row])
           Sample.repeated "alice" "laptop"
           "Processed 2 entries, successful 1, failed 1." None eq_refl eq_refl).
Defined.

(** X5.  Every row [AddFromBuffer] appends carries the user and the host it
    was called with and is the record of a newline-terminated line of the
    input: a line that matches, with its timestamp parsed and its command. *)
Theorem AddFromBuffer_rows_from_lines
    (d : Database) (r : Reader) (user host stats : string) (new : list HistoryRow) :
  AddFromBuffer d r user host = Some (stats, None, set_history d (history d ++ new)) ->
  Forall (fun row =>
            h_user row = user /\ h_host row = host /\
            exists l, In l (lines_of r) /\ record_of user host l = Some row) new.
Proof.
  rewrite AddFromBuffer_lines.
  destruct (import_lines user host (lines_of r) (history d) 0) as [[tx failed]|e] eqn:Hrun;
    [|discriminate].
  intros [= _ Htx].
  destruct (import_lines_new user host _ _ _ _ _ Hrun) as (new' & -> & Hnew).
  apply app_inv_head in Htx. subst new'.
  eapply Forall_impl; [|exact Hnew]. cbn beta.
  intros row (l & Hin & Hrec).
  destruct (record_of_user_host user host l row Hrec) as [Hu Hh].
  repeat split; try assumption. exists l. split; assumption.
Qed.

Lemma AddFromBuffer_rows_from_lines_witness :
  Forall (fun row =>
            h_user row = "alice" /\ h_host row = "laptop" /\
            exists l, In l (lines_of Sample.repeated) /\
                      record_of "alice" "laptop" l = Some row) [Sample.ls_row].
Proof.
  exact (AddFromBuffer_rows_from_lines initDB Sample.repeated "alice" "laptop"
           "Processed 2 entries, successful 1, failed 1." [Sample.ls_row] eq_refl).
Defined.

(** X6.  Two texts in one import and in two.  When the first text, of
    newline-terminated lines, is imported without error, importing the second
    after it and importing the two as one input leave the same database, if
    the second import returns no error; if it returns an error, the import of
    the two as one returns that error and keeps nothing, not even the rows of
    the first text. *)
Theorem AddFromBuffer_app
    (d d1 : Database) (r1 r2 : Reader) (user host stats1 : string) :
  complete r1 = true ->
  AddFromBuffer d r1 user host = Some (stats1, None, d1) ->
  match AddFromBuffer d1 r2 user host with
  | Some (_, None, d2) =>
      exists stats, AddFromBuffer d (r1 ++ r2) user host = Some (stats, None, d2)
  | Some (_, Some e, _) =>
      AddFromBuffer d (r1 ++ r2) user host = Some ("", Some e, d)
  | None => False
  end.
Proof.
  intros Hc. rewrite !AddFromBuffer_lines, (lines_of_app r1 r2 Hc), import_lines_app.
  destruct (import_lines user host (lines_of r1) (history d) 0) as [[tx1 f1]|e] eqn:Hrun;
    [|discriminate].
  intros [= _ <-]. cbn [history set_history].
  rewrite (import_lines_shift user host (lines_of r2) tx1 f1).
  destruct (import_lines user host (lines_of r2) tx1 0) as [[tx2 f2]|e];
    [eexists|]; reflexivity.
Qed.

Lemma AddFromBuffer_app_witness :
  complete Sample.ls_line = true /\
  (exists stats,
      AddFromBuffer initDB (Sample.ls_line ++ Sample.cd_line) "alice" "laptop" =
      Some (stats, None,
            match AddFromBuffer (set_history initDB [Sample.ls_row]) Sample.cd_line
                    "alice" "laptop" with
            | Some (_, _, d2) => d2
            | None => initDB
            end)).
Proof.
  split; [reflexivity|].
  exact (AddFromBuffer_app initDB (set_history initDB [Sample.ls_row])
           Sample.ls_line Sample.cd_line "alice" "laptop"
           "Processed 1 entries, successful 1, failed 0." eq_refl eq_refl).
Defined.

(** X7.  Importing any text again right after an import of it that returned
    a summary, lines that do not match included: no error, the database stays
    as the first import left it, and every line is reported failed. *)
Theorem AddFromBuffer_again
    (d d1 : Database) (r : Reader) (user host stats1 : string) :
  AddFromBuffer d r user host = Some (stats1, None, d1) ->
  let n := Z.of_nat (count_newlines r) in
  AddFromBuffer d1 r user host = Some (Sprintf_stats n 0 n, None, d1).
Proof.
  rewrite !AddFromBuffer_lines.
  destruct (import_lines user host (lines_of r) (history d) 0) as [[tx failed]|e] eqn:Hrun;
    [|discriminate].
  intros [= _ <-]. cbn [history set_history].
  pose proof (import_lines_Ok user host _ _ _ _ _ Hrun) as Htol.
  destruct (import_lines_tolerated user host _ Htol (history d) 0)
    as (new & f' & Hrun' & _ & _ & Hkeys).
  rewrite Hrun in Hrun'. injection Hrun' as -> ->.
  rewrite (import_lines_replay user host _ Htol _ 0 Hkeys), length_lines_of.
  cbv zeta. rewrite Z.add_0_l, Z.sub_diag. reflexivity.
Qed.

Lemma AddFromBuffer_again_witness :
  let text := String.concat "" Sample.thirteen in
  exists d1,
    AddFromBuffer initDB text "alice" "laptop" =
      Some ("Processed 13 entries, successful 10, failed 3.", None, d1) /\
    AddFromBuffer d1 text "alice" "laptop" =
      Some ("Processed 13 entries, successful 0, failed 13.", None, d1).
Proof.
  cbv zeta. eexists. split; [reflexivity|].
  exact (AddFromBuffer_again initDB _ (String.concat "" Sample.thirteen)
           "alice" "laptop" _ eq_refl).
Defined.


(* ===================================================================== *)
(** * AddRecord *)

(** X8.  [AddRecord] never returns an error for a duplicate and is
    idempotent: it returns no error, the key of the record is in [history]
    afterwards, the rows there before are kept, and adding the same record
    again changes nothing. *)
Theorem AddRecord_idempotent (d : Database) (user host command : string) (time : Time) :
  let row := {| h_user := user; h_host := host; h_command := command;
                h_datetime := time |} in
  let d1 := snd (AddRecord d user host command time) in
  fst (AddRecord d user host command time) = None /\
  existsb (same_key row) (history d1) = true /\
  (exists new, history d1 = (history d ++ new)%list) /\
  AddRecord d1 user host command time = (None, d1).
Proof.
  cbv zeta. unfold AddRecord, insert_Exec.
  destruct (existsb _ (history d)) eqn:Hdup; cbn [fst snd history set_history].
  - rewrite Hdup. repeat split; try assumption. exists []. symmetry. apply app_nil_r.
  - assert (Hin : existsb
                    (same_key {| h_user := user; h_host := host; h_command := command;
                                 h_datetime := time |})
                    (history d ++ [{| h_user := user; h_host := host;
                                      h_command := command; h_datetime := time |}]) = true).
    { rewrite existsb_app. cbn [existsb]. rewrite same_key_refl, orb_true_r. reflexivity. }
    rewrite Hin. repeat split; try assumption. eexists. reflexivity.
Qed.

(** X9.  [AddRecord] keeps the primary key of [history] a key. *)
Theorem AddRecord_keeps_key (d : Database) (user host command : string) (time : Time) :
  distinct_keys (history d) = true ->
  distinct_keys (history (snd (AddRecord d user host command time))) = true.
Proof.
  intros Hd. unfold AddRecord, insert_Exec.
  destruct (existsb _ (history d)) eqn:Hdup; cbn [snd history set_history];
    [exact Hd | apply distinct_keys_snoc; assumption].
Qed.

Lemma AddRecord_keeps_key_witness :
  distinct_keys (history initDB) = true /\
  distinct_keys
    (history (snd (AddRecord initDB "alice" "laptop" "ls -la"
                     (h_datetime Sample.ls_row)))) = true.
Proof.
  split; [reflexivity|].
  exact (AddRecord_keeps_key initDB "alice" "laptop" "ls -la"
           (h_datetime Sample.ls_row) eq_refl).
Defined.

(** X10.  Importing one well-formed line is adding its record: the import
    of a single newline-terminated line that stands for the record [row]
    leaves the database [AddRecord] leaves for the fields of [row], and
    returns no error. *)
Theorem AddFromBuffer_one_line
    (d : Database) (l user host : string) (row : HistoryRow) :
  is_line l = true ->
  record_of user host l = Some row ->
  exists stats,
    AddFromBuffer d l user host =
    Some (stats, None,
          snd (AddRecord d user host (h_command row) (h_datetime row))).
Proof.
  intros Hl Hrec. rewrite AddFromBuffer_lines, (lines_of_line l Hl).
  cbn [import_lines]. rewrite (turn_record user host l row _ 0 Hrec).
  destruct (record_of_user_host user host l row Hrec) as [Hu Hh].
  unfold AddRecord, insert_Exec.
  replace {| h_user := user; h_host := host; h_command := h_command row;
             h_datetime := h_datetime row |} with row
    by (destruct row; cbn in *; subst; reflexivity).
  destruct (existsb (same_key row) (history d)); eexists; cbn [snd];
    [|reflexivity].
  destruct d; reflexivity.
Qed.

Lemma AddFromBuffer_one_line_witness :
  is_line Sample.ls_line = true /\
  record_of "alice" "laptop" Sample.ls_line = Some Sample.ls_row /\
  exists stats,
    AddFromBuffer initDB Sample.ls_line "alice" "laptop" =
    Some (stats, None,
          snd (AddRecord initDB "alice" "laptop" "ls -la" (h_datetime Sample.ls_row))).
Proof.
  split; [reflexivity | split; [reflexivity|]].
  exact (AddFromBuffer_one_line initDB Sample.ls_line "alice" "laptop" Sample.ls_row
           eq_refl eq_refl).
Defined.

(* ===================================================================== *)
(** * Further properties of migrate, New and the view *)

Lemma insert_conn_rows_Ok (src : list ConnRow) :
  forall dst res,
    insert_conn_rows src dst = Ok res ->
    NoDup (map c_datetime dst) ->
    NoDup (map c_datetime dst ++ map c_datetime src).
Proof.
  induction src as [|row src IH]; intros dst res H Hnd; cbn [map].
  - rewrite app_nil_r. exact Hnd.
  - cbn [insert_conn_rows] in H.
    destruct (existsb _ dst) eqn:Hex; [discriminate|].
    assert (Hnot : ~ In (c_datetime row) (map c_datetime dst)).
    { intros Hin. apply in_map_iff in Hin as (x & Hx & Hin).
      assert (existsb (fun x => String.eqb (c_datetime x) (c_datetime row)) dst = true).
      { apply existsb_exists. exists x. split; [exact Hin|]. apply String.eqb_eq, Hx. }
      congruence. }
    specialize (IH _ _ H). rewrite map_app in IH. cbn [map c_datetime] in IH.
    rewrite <- app_assoc in IH. apply IH.
    apply NoDup_app; [exact Hnd | repeat constructor; intros [] |].
    intros a Ha [<- | []]. contradiction.
Qed.

Lemma migrate_stmt_preserves (d tx : Database) :
  migrate_stmt d = Ok tx ->
  history tx = history d /\ admin tx = admin d /\ rlookup tx = Some [].
Proof.
  unfold migrate_stmt, create_connlog_new.
  destruct (connlog_new d); [discriminate|]. cbn [bind].
  unfold copy_connlog. cbn [connlog connlog_new].
  destruct (connlog d) as [src|]; [|discriminate].
  destruct (insert_conn_rows src []) as [rows|e]; [|discriminate]. cbn [bind].
  unfold drop_connlog. cbn [connlog bind].
  unfold rename_connlog_new. cbn [connlog connlog_new bind].
  unfold create_rlookup. cbn [rlookup].
  destruct (rlookup d); [discriminate|]. cbn [bind].
  unfold create_view. cbn [connections].
  destruct (connections d); [discriminate|].
  intros [= <-]. repeat split.
Qed.

(** the statements of the migration go through on version-1 stores only *)
Lemma migrate_stmt_Ok (d tx : Database) :
  migrate_stmt d = Ok tx ->
  exists rows,
    connlog d = Some rows /\ NoDup (map c_datetime rows) /\
    connlog_new d = None /\ rlookup d = None /\ connections d = None.
Proof.
  unfold migrate_stmt, create_connlog_new.
  destruct (connlog_new d); [discriminate|]. cbn [bind].
  unfold copy_connlog. cbn [connlog connlog_new].
  destruct (connlog d) as [src|]; [|discriminate].
  destruct (insert_conn_rows src []) as [rows|e] eqn:Hins; [|discriminate]. cbn [bind].
  unfold drop_connlog. cbn [connlog bind].
  unfold rename_connlog_new. cbn [connlog connlog_new bind].
  unfold create_rlookup. cbn [rlookup].
  destruct (rlookup d); [discriminate|]. cbn [bind].
  unfold create_view. cbn [connections].
  destruct (connections d); [discriminate|].
  intros _. exists src. repeat split.
  apply (insert_conn_rows_Ok src [] rows Hins). constructor.
Qed.

(** X11.  On a store whose recorded version is "1", [migrate] returns no
    error exactly when the store has a [connlog] table with distinct
    datetimes and none of [connlog_new], [rlookup] and [connections]: a
    store that has one of these already (a migration half done by hand, say)
    is refused and left as it is. *)
Theorem migrate_version1_iff (d : Database) :
  select_version d = Ok "1" ->
  (snd (migrate d) = None <-> exists rows, version1_store d rows) /\
  (snd (migrate d) <> None -> fst (migrate d) = d).
Proof.
  intros Hver. split; [split|].
  - unfold migrate. rewrite Hver. cbn [String.eqb Ascii.eqb Bool.eqb].
    destruct (migrate_stmt d) as [tx|e] eqn:Hstmt; cbn [bind snd]; [|discriminate].
    intros _. destruct (migrate_stmt_Ok d tx Hstmt) as (rows & H).
    exists rows. split; assumption.
  - intros [rows H]. unfold migrate. rewrite Hver. cbn [String.eqb Ascii.eqb Bool.eqb].
    rewrite (migrate_stmt_version1 d rows H). reflexivity.
  - unfold migrate. rewrite Hver. cbn [String.eqb Ascii.eqb Bool.eqb].
    destruct (migrate_stmt d) as [tx|e]; cbn [bind]; unfold update_version;
      cbn [snd fst]; [intros H; exfalso; apply H; reflexivity | reflexivity].
Qed.

Lemma migrate_version1_iff_witness :
  select_version Stores.v1_store = Ok "1" /\
  (snd (migrate Stores.v1_store) = None <-> exists rows, version1_store Stores.v1_store rows).
Proof.
  split; [reflexivity|].
  exact (proj1 (migrate_version1_iff Stores.v1_store eq_refl)).
Defined.

Lemma migrate_result (d d' : Database) (r : option error) :
  migrate d = (d', r) ->
  history d' = history d /\
  map fst (admin d') = map fst (admin d) /\
  (r = None -> select_version d' = Ok VERSION /\ migrate d' = (d', None)).
Proof.
  intros Hm.
  destruct (migrate_atomic d d' r Hm) as [-> | (-> & Hver & tx & Hstmt & Hup)].
  - split; [reflexivity | split; [reflexivity|]].
    intros ->. assert (Hv : select_version d = Ok VERSION).
    { unfold migrate in Hm. destruct (select_version d) as [v|e]; [|discriminate].
      destruct (String.eqb v "1") eqn:E1.
      - destruct (migrate_stmt d) as [tx|e] eqn:Hstmt; cbn [bind] in Hm; [|discriminate].
        (* a store that went through the statements has [rlookup]; it had not *)
        exfalso. unfold update_version in Hm. injection Hm as Hm.
        destruct (migrate_stmt_Ok d tx Hstmt) as (rows & _ & _ & _ & Hr & _).
        destruct (migrate_stmt_preserves d tx Hstmt) as (_ & _ & Hr').
        rewrite <- Hm in Hr. cbn [rlookup] in Hr. congruence.
      - destruct (String.eqb v VERSION) eqn:E2; cbn [negb] in Hm; [|discriminate].
        apply String.eqb_eq in E2. rewrite E2. reflexivity. }
    split; [exact Hv|]. unfold migrate. rewrite Hv. reflexivity.
  - destruct (migrate_stmt_preserves d tx Hstmt) as (Hh & Ha & _).
    assert (Hd' : history d' = history d /\ map fst (admin d') = map fst (admin d)).
    { unfold update_version in Hup. injection Hup as <-. cbn [history admin].
      split; [exact Hh|]. rewrite Ha, map_map. apply map_ext.
      intros [k v]. cbn [fst]. destruct (LIKE k "version"); reflexivity. }
    destruct Hd' as [Hh' Ha']. repeat split; try assumption.
    + eapply select_version_updated; [|exact Hup].
      unfold select_version. rewrite Ha. exact Hver.
    + assert (Hv : select_version d' = Ok VERSION).
      { eapply select_version_updated; [|exact Hup].
        unfold select_version. rewrite Ha. exact Hver. }
      unfold migrate. rewrite Hv. reflexivity.
Qed.

(** X12.  [migrate] never touches the history nor the keys of [admin], and
    a store it returned without error is at the current version and goes
    through [migrate] again unchanged. *)
Theorem migrate_again (d d' : Database) (r : option error) :
  migrate d = (d', r) ->
  history d' = history d /\
  map fst (admin d') = map fst (admin d) /\
  (r = None -> select_version d' = Ok VERSION /\ migrate d' = (d', None)).
Proof. apply migrate_result. Qed.

Lemma migrate_again_witness :
  history (fst (migrate Stores.v1_store)) = history Stores.v1_store /\
  select_version (fst (migrate Stores.v1_store)) = Ok VERSION /\
  migrate (fst (migrate Stores.v1_store)) = (fst (migrate Stores.v1_store), None).
Proof.
  destruct (migrate_again Stores.v1_store (fst (migrate Stores.v1_store)) None eq_refl)
    as (Hh & _ & Hr).
  destruct (Hr eq_refl) as [Hv Hm]. repeat split; assumption.
Defined.

(** X13.  The store [New] returns is at the current version, and opening an
    existing store keeps its history; a missing file gives the store of
    [initDB], with no history. *)
Theorem New_current (file : option Database) (d : Database) :
  New file = Ok d ->
  select_version d = Ok VERSION /\
  match file with
  | Some d0 => history d = history d0
  | None => d = initDB /\ history d = []
  end.
Proof.
  unfold New. destruct file as [d0|].
  - destruct (migrate d0) as [d' [e|]] eqn:Hm; [discriminate|].
    intros [= <-]. destruct (migrate_result d0 d' None Hm) as (Hh & _ & Hr).
    destruct (Hr eq_refl) as [Hv _]. split; assumption.
  - intros [= <-]. repeat split.
Qed.

Lemma New_current_witness :
  exists d, New (Some Stores.v1_store) = Ok d /\
            select_version d = Ok VERSION /\ history d = [Sample.ls_row].
Proof.
  eexists. split; [reflexivity|].
  exact (New_current (Some Stores.v1_store) _ eq_refl).
Defined.

(** *** The view and the connection log *)

Lemma lookups_key (ip : string) (r : list LookupRow) :
  NoDup (map r_ip r) -> (List.length (lookups ip r) <= 1)%nat.
Proof.
  unfold lookups. induction r as [|x r IH]; cbn [map filter]; [auto|].
  intros Hnd. apply NoDup_cons_iff in Hnd as [Hx Hnd]. specialize (IH Hnd).
  destruct (String.eqb_spec ip (r_ip x)) as [->|_]; [|exact IH].
  assert (Hnone : filter (fun y => String.eqb (r_ip x) (r_ip y)) r = []).
  { clear - Hx. induction r as [|y r IH]; [reflexivity|]. cbn [filter map] in *.
    destruct (String.eqb_spec (r_ip x) (r_ip y)) as [Heq|_].
    - exfalso. apply Hx. left. symmetry. exact Heq.
    - apply IH. intros Hin. apply Hx. right. exact Hin. }
  rewrite Hnone. cbn. lia.
Qed.

Lemma eval_view_cons (v : ViewDef) (row : ConnRow) (c : list ConnRow) (r : list LookupRow) :
  eval_view v (row :: c) r = (view_rows v row r ++ eval_view v c r)%list.
Proof. reflexivity. Qed.


(** X14.  The two definitions of [connections] side by side.  The inner
    JOIN yields the rows of the LEFT JOIN that have a reverse lookup, in the
    same order; and with [ip] the key of [rlookup], the LEFT JOIN yields one
    row for each row of [connlog], with its datetime and remote, in order. *)
Theorem eval_view_JOIN_LEFT (c : list ConnRow) (r : list LookupRow) :
  eval_view JOIN_rlookup c r =
    filter (fun v : ViewRow => match snd v with Some _ => true | None => false end)
           (eval_view LEFT_JOIN_rlookup c r) /\
  (NoDup (map r_ip r) ->
   map fst (eval_view LEFT_JOIN_rlookup c r) =
   map (fun row => (c_datetime row, c_remote row)) c).
Proof.
  split.
  - induction c as [|row c IH]; [reflexivity|].
    rewrite !eval_view_cons, filter_app, <- IH. f_equal.
    unfold view_rows.
    destruct (lookups (c_remote row) r) as [|x found]; [reflexivity|].
    generalize (x :: found). intros l. induction l as [|y l IHl]; [reflexivity|].
    cbn [map filter snd]. rewrite <- IHl. reflexivity.
  - intros Hnd. induction c as [|row c IH]; [reflexivity|].
    rewrite eval_view_cons, map_app.
    change (map (fun row0 => (c_datetime row0, c_remote row0)) (row :: c))
      with ([(c_datetime row, c_remote row)]
              ++ map (fun row0 => (c_datetime row0, c_remote row0)) c)%list.
    f_equal; [clear IH | exact IH]. unfold view_rows.
    pose proof (lookups_key (c_remote row) r Hnd) as Hle.
    destruct (lookups (c_remote row) r) as [|x [|y found]]; cbn in *;
      [reflexivity | reflexivity | lia].
Qed.

Lemma eval_view_JOIN_LEFT_witness :
  NoDup (map r_ip []) /\
  map fst (eval_view LEFT_JOIN_rlookup [Stores.conn_a; Stores.conn_b] []) =
  [("2015-02-27 18:20:11", "192.0.2.7"); ("2015-02-28 07:02:45", "198.51.100.23")].
Proof.
  split; [constructor|].
  exact (proj2 (eval_view_JOIN_LEFT [Stores.conn_a; Stores.conn_b] []) (NoDup_nil _)).
Defined.





(* ===================================================================== *)
(** * Further properties of the network package *)

Section HandlerMore.

Context {codec : Codec} {db_queries : Queries}.

Lemma receiveDecrypt_conn (key : string) (conn : Conn) :
  outbox (fst (receiveDecrypt key conn)) = outbox conn /\
  write_error (fst (receiveDecrypt key conn)) = write_error conn /\
  closed (fst (receiveDecrypt key conn)) = closed conn.
Proof.
  unfold receiveDecrypt.
  destruct (gob_Decode_bytes (inbox conn)) as [[encMsg rest]|e]; [|repeat split].
  destruct (saltsecret_Decrypt key encMsg) as [p|e]; [|repeat split].
  destruct (gob_Decode_Message p); repeat split.
Qed.

Lemma encryptDispatch_cases (key entropy : string) (conn : Conn) (m : Message) :
  (exists e, encryptDispatch key entropy conn m = (conn, Some e)) \/
  (exists encMsg,
      saltsecret_Encrypt key entropy (gob_Encode_Message m) = Ok encMsg /\
      write_error conn = None /\
      encryptDispatch key entropy conn m =
      ({| inbox := inbox conn; outbox := outbox conn ++ gob_Encode_bytes encMsg;
          write_error := None; closed := closed conn |}, None)).
Proof.
  unfold encryptDispatch, conn_Write.
  destruct (saltsecret_Encrypt key entropy (gob_Encode_Message m)) as [encMsg|e];
    [|left; eexists; reflexivity].
  destruct (write_error conn) as [e|]; [left; eexists; reflexivity|].
  right. exists encMsg. repeat split.
Qed.

Lemma handleConn_dispatched
    (key entropy : string) (conn conn1 : Conn) (msg : Message) (db db' : Database)
    (result : string) :
  receiveDecrypt key conn = (conn1, (msg, None)) ->
  handleConn_switch msg db = Some (Result result db') ->
  handleConn key entropy conn db =
  Some (conn_Close (fst (encryptDispatch key entropy conn1 (result_message result))),
        db', false).
Proof.
  intros Hrecv Hsw. unfold handleConn. rewrite Hrecv, Hsw.
  fold (result_message result).
  destruct (encryptDispatch key entropy conn1 (result_message result)). reflexivity.
Qed.

End HandlerMore.

(** X17.  A HISTORY message.  [handleConn] imports its payload under the
    user and the host of the message; the database afterwards is the one the
    import leaves, and the reply carries the summary of the import, or the
    text of its error (and then the database is as it was). *)
Theorem handleConn_HISTORY
    (codec : Codec) (db_queries : Queries)
    (key entropy : string) (conn conn1 : Conn) (msg : Message) (db db' : Database)
    (stats : string) (err : option error) :
  receiveDecrypt key conn = (conn1, (msg, None)) ->
  Type_ msg = HISTORY ->
  AddFromBuffer db (Payload msg) (User msg) (Hostname msg) = Some (stats, err, db') ->
  handleConn key entropy conn db =
  Some (conn_Close
          (fst (encryptDispatch key entropy conn1
                  (result_message match err with
                                  | None => stats
                                  | Some e => Error e
                                  end))),
        db', false) /\
  (err <> None -> db' = db).
Proof.
  intros Hrecv Hty Himport. split.
  - eapply handleConn_dispatched; [exact Hrecv|].
    unfold handleConn_switch. rewrite Hty, Himport.
    change (String.eqb HISTORY HISTORY) with true. cbv iota.
    destruct err; reflexivity.
  - intros Herr. destruct err as [e|]; [|congruence].
    apply AddFromBuffer_Err_inv in Himport. tauto.
Qed.

Lemma handleConn_HISTORY_witness :
  let conn := dialled (Reference.wire "secret" "salt" Reference.import_request) in
  exists db',
    AddFromBuffer initDB Sample.three_lines "alice" "laptop" =
      Some ("Processed 3 entries, successful 3, failed 0.", None, db') /\
    handleConn "secret" "entropy" conn initDB =
    Some (conn_Close
            (fst (encryptDispatch "secret" "entropy" (dialled "")
                    (result_message "Processed 3 entries, successful 3, failed 0."))),
          db', false).
Proof.
  cbv zeta. eexists. split; [reflexivity|].
  exact (proj1 (handleConn_HISTORY Reference.codec Reference.no_rows "secret" "entropy"
                  (dialled (Reference.wire "secret" "salt" Reference.import_request))
                  (dialled "") Reference.import_request initDB _
                  "Processed 3 entries, successful 3, failed 0." None
                  eq_refl eq_refl eq_refl)).
Defined.

(** X18.  Messages that are not HISTORY.  [handleConn] leaves the database
    as it is whatever the message; a QUERY message whose [RunQuery] succeeds
    is answered with the result of [RunQuery] for the parameters of the
    message; a message of a type that is none of HISTORY, STATS and QUERY is
    answered with the empty payload. *)
Theorem handleConn_not_HISTORY
    (codec : Codec) (db_queries : Queries)
    (key entropy : string) (conn conn1 : Conn) (msg : Message) (db : Database) :
  receiveDecrypt key conn = (conn1, (msg, None)) ->
  Type_ msg <> HISTORY ->
  (forall conn' db' fatal,
      handleConn key entropy conn db = Some (conn', db', fatal) -> db' = db) /\
  (forall res,
      Type_ msg = QUERY -> RunQuery (QParams msg) db = (res, None) ->
      handleConn key entropy conn db =
      Some (conn_Close (fst (encryptDispatch key entropy conn1 (result_message res))),
            db, false)) /\
  (Type_ msg <> STATS -> Type_ msg <> QUERY ->
   handleConn key entropy conn db =
   Some (conn_Close (fst (encryptDispatch key entropy conn1 (result_message ""))),
         db, false)).
Proof.
  intros Hrecv Hty.
  assert (Hh : String.eqb (Type_ msg) HISTORY = false) by (apply String.eqb_neq, Hty).
  split; [|split].
  - intros conn' db' fatal. unfold handleConn, handleConn_switch. rewrite Hrecv, Hh.
    destruct (String.eqb (Type_ msg) STATS).
    + destruct (TopK (all_stats 20) db) as [res1 [e|]]; [intros [= _ <- _]; reflexivity|].
      destruct (LastK (all_stats 10) db) as [res2 [e|]]; [intros [= _ <- _]; reflexivity|].
      cbv zeta. destruct (encryptDispatch _ _ _ _). intros [= _ <- _]. reflexivity.
    + destruct (String.eqb (Type_ msg) QUERY).
      * destruct (RunQuery (QParams msg) db) as [res [e|]];
          [intros [= _ <- _]; reflexivity|].
        destruct (encryptDispatch _ _ _ _). intros [= _ <- _]. reflexivity.
      * destruct (encryptDispatch _ _ _ _). intros [= _ <- _]. reflexivity.
  - intros res Hq Hrun. eapply handleConn_dispatched; [exact Hrecv|].
    unfold handleConn_switch. rewrite Hh, Hq, Hrun. reflexivity.
  - intros Hs Hq. eapply handleConn_dispatched; [exact Hrecv|].
    unfold handleConn_switch. rewrite Hh.
    apply String.eqb_neq in Hs, Hq. rewrite Hs, Hq. reflexivity.
Qed.

Lemma handleConn_not_HISTORY_witness :
  handleConn "secret" "entropy"
    (dialled (Reference.wire "secret" "salt" ping_request)) initDB =
  Some (conn_Close (fst (encryptDispatch "secret" "entropy" (dialled "")
                           (result_message ""))),
        initDB, false).
Proof.
  refine (proj2 (proj2 (handleConn_not_HISTORY Reference.codec Reference.no_rows
                          "secret" "entropy"
                          (dialled (Reference.wire "secret" "salt" ping_request))
                          (dialled "") ping_request initDB eq_refl _)) _ _);
    discriminate.
Defined.

(** X19.  What [handleConn] does to a connection.  Unless the process is
    ended by [log.Fatalln], it returns with the connection closed.  It writes
    nothing, or one frame: the gob encoding of the encryption of a message of
    type RESULT. *)
Theorem handleConn_one_reply
    (codec : Codec) (db_queries : Queries)
    (key entropy : string) (conn conn' : Conn) (db db' : Database) (fatal : bool) :
  handleConn key entropy conn db = Some (conn', db', fatal) ->
  closed conn' = (if fatal then closed conn else true) /\
  (outbox conn' = outbox conn \/
   exists payload encMsg,
     saltsecret_Encrypt key entropy (gob_Encode_Message (result_message payload))
       = Ok encMsg /\
     outbox conn' = outbox conn ++ gob_Encode_bytes encMsg).
Proof.
  unfold handleConn.
  destruct (receiveDecrypt_conn key conn) as (Hout & _ & Hcl).
  destruct (receiveDecrypt key conn) as [conn1 [msg [e|]]]; cbn [fst] in Hout, Hcl.
  - intros [= <- _ <-]. cbn [closed outbox conn_Close]. split; [reflexivity | left; exact Hout].
  - destruct (handleConn_switch msg db) as [[result db1|e]|]; [| |discriminate].
    + fold (result_message result).
      destruct (encryptDispatch_cases key entropy conn1 (result_message result))
        as [[e ->] | (encMsg & Henc & _ & ->)]; intros [= <- _ <-];
        cbn [closed outbox conn_Close]; (split; [reflexivity|]).
      * left; exact Hout.
      * right. exists result, encMsg. rewrite Hout. split; [exact Henc | reflexivity].
    + intros [= <- _ <-]. split; [exact Hcl | left; exact Hout].
Qed.

Lemma handleConn_one_reply_witness :
  let conn := dialled (Reference.wire "secret" "salt" Reference.stats_request) in
  exists conn',
    handleConn "secret" "entropy" conn initDB = Some (conn', initDB, false) /\
    closed conn' = true.
Proof.
  cbv zeta. eexists. split; [reflexivity|].
  exact (proj1 (handleConn_one_reply Reference.codec Reference.no_rows "secret" "entropy"
                  (dialled (Reference.wire "secret" "salt" Reference.stats_request))
                  _ initDB initDB false eq_refl)).
Defined.


Section Sessions.

Context {codec : Codec} {laws : CodecLaws codec} {db_queries : Queries}.

(** the bytes [encryptDispatch] writes are read back as the message *)
Lemma envelope_received (key entropy : string) (m : Message) (encMsg : string) (conn : Conn) :
  saltsecret_Encrypt key entropy (gob_Encode_Message m) = Ok encMsg ->
  inbox conn = gob_Encode_bytes encMsg ->
  receiveDecrypt key conn =
  ({| inbox := ""; outbox := outbox conn; write_error := write_error conn;
      closed := closed conn |}, (m, None)).
Proof.
  intros Henc Hin. unfold receiveDecrypt.
  rewrite Hin, <- (append_nil_r (gob_Encode_bytes encMsg)), Decode_Encode_bytes.
  rewrite (Decrypt_Encrypt key entropy _ _ Henc), Decode_Encode_Message. reflexivity.
Qed.

(** a whole session: what the client sends reaches [handleConn], whose
    reply reaches the client *)
Lemma session (cfg : Config) (e1 e2 : string) (request : Message)
    (db db' : Database) (result : string) :
  (forall e p, exists c, saltsecret_Encrypt (conf_Key cfg) e p = Ok c) ->
  handleConn_switch request db = Some (Result result db') ->
  let sent := outbox (fst (encryptDispatch (conf_Key cfg) e1 (dialled "") request)) in
  exists served,
    handleConn (conf_Key cfg) e2 (dialled sent) db = Some (served, db', false) /\
    closed served = true /\
    encryptDispatch (conf_Key cfg) e1 (dialled (outbox served)) request =
      (fst (encryptDispatch (conf_Key cfg) e1 (dialled (outbox served)) request), None) /\
    snd (receiveDecrypt (conf_Key cfg)
           (fst (encryptDispatch (conf_Key cfg) e1 (dialled (outbox served)) request)))
    = (result_message result, None).
Proof.
  intros Henc Hsw. cbv zeta.
  destruct (Henc e1 (gob_Encode_Message request)) as [c1 Hc1].
  destruct (Henc e2 (gob_Encode_Message (result_message result))) as [c2 Hc2].
  assert (Hsend : forall bytes,
             encryptDispatch (conf_Key cfg) e1 (dialled bytes) request =
             ({| inbox := bytes; outbox := gob_Encode_bytes c1; write_error := None;
                 closed := false |}, None)).
  { intros bytes. unfold encryptDispatch, conn_Write. rewrite Hc1. reflexivity. }
  rewrite Hsend. cbn [fst outbox].
  pose proof (envelope_received (conf_Key cfg) e1 request c1
                (dialled (gob_Encode_bytes c1)) Hc1 eq_refl) as Hrecv.
  rewrite (handleConn_dispatched (conf_Key cfg) e2 _ _ request db db' result Hrecv Hsw).
  unfold encryptDispatch at 1, conn_Write. rewrite Hc2. cbn [write_error fst outbox append].
  eexists. split; [reflexivity|]. cbn [closed conn_Close outbox].
  split; [reflexivity|]. rewrite Hsend. cbn [fst]. split; [reflexivity|].
  erewrite envelope_received; [reflexivity | exact Hc2 | reflexivity].
Qed.

End Sessions.

(** X21.  A query session from end to end, with libraries that keep their
    promises and an encryption that succeeds: the request [ClientMode] sends
    reaches [handleConn], which leaves the database as it is and closes the
    connection, and when [RunQuery] succeeds for the parameters of the
    client, the client prints the result of [RunQuery], that one line, and
    returns no error. *)
Theorem query_session
    (codec : Codec) (laws : CodecLaws codec) (db_queries : Queries)
    (cfg : Config) (e1 e2 res : string) (stdin : result string) (db : Database) :
  conf_Operation cfg = conf.OP_QUERY ->
  (forall e p, exists c, saltsecret_Encrypt (conf_Key cfg) e p = Ok c) ->
  RunQuery (conf_QParams cfg) db = (res, None) ->
  let sent :=
    outbox (fst (encryptDispatch (conf_Key cfg) e1 (dialled "") (query_request cfg))) in
  exists served,
    handleConn (conf_Key cfg) e2 (dialled sent) db = Some (served, db, false) /\
    closed served = true /\
    ClientMode cfg e1 (Ok (dialled (outbox served))) stdin = (None, [res]).
Proof.
  intros Hop Henc Hrun.
  assert (Hsw : handleConn_switch (query_request cfg) db = Some (Result res db)).
  { unfold handleConn_switch. cbn [Type_ QParams query_request]. rewrite Hrun. reflexivity. }
  destruct (session cfg e1 e2 (query_request cfg) db db res Henc Hsw)
    as (served & Hserved & Hclosed & Hsend & Hrecv).
  exists served. split; [exact Hserved | split; [exact Hclosed|]].
  unfold ClientMode. rewrite Hop. fold (query_request cfg). rewrite Hsend.
  rewrite (surjective_pairing (receiveDecrypt _ _)), Hrecv. reflexivity.
Qed.

Lemma query_session_witness :
  exists served,
    handleConn "secret" "e2"
      (dialled (Reference.wire "secret" "e1" (query_request Reference.stats_config)))
      initDB = Some (served, initDB, false) /\
    ClientMode {| conf_Key := "secret"; conf_Operation := conf.OP_QUERY;
                  conf_User := "alice"; conf_Hostname := "laptop";
                  conf_QParams := QueryParams_zero |} "e1"
      (Ok (dialled (outbox served))) (Ok "") = (None, [""]).
Proof.
  destruct (query_session Reference.codec ReferenceLaws.laws Reference.no_rows
              {| conf_Key := "secret"; conf_Operation := conf.OP_QUERY;
                 conf_User := "alice"; conf_Hostname := "laptop";
                 conf_QParams := QueryParams_zero |} "e1" "e2" "" (Ok "") initDB
              eq_refl (fun e p => ex_intro _ _ eq_refl) eq_refl)
    as (served & H1 & _ & H2).
  exists served. split; assumption.
Defined.

(** X22.  An import session from end to end, under the same conditions:
    the server imports the text the client read from standard input under
    the user and the host of the client, its database afterwards is the one
    [AddFromBuffer] leaves, and the client prints nothing and returns no
    error, also when the import failed on the server. *)
Theorem import_session
    (codec : Codec) (laws : CodecLaws codec) (db_queries : Queries)
    (cfg : Config) (e1 e2 history stats : string) (err : option error)
    (db db' : Database) :
  conf_Operation cfg = conf.OP_IMPORT ->
  (forall e p, exists c, saltsecret_Encrypt (conf_Key cfg) e p = Ok c) ->
  AddFromBuffer db history (conf_User cfg) (conf_Hostname cfg) = Some (stats, err, db') ->
  let sent :=
    outbox (fst (encryptDispatch (conf_Key cfg) e1 (dialled "")
                   (history_request cfg history))) in
  exists served,
    handleConn (conf_Key cfg) e2 (dialled sent) db = Some (served, db', false) /\
    closed served = true /\
    ClientMode cfg e1 (Ok (dialled (outbox served))) (Ok history) = (None, []).
Proof.
  intros Hop Henc Himport.
  assert (Hsw : handleConn_switch (history_request cfg history) db =
                Some (Result match err with None => stats | Some e => Error e end db')).
  { unfold handleConn_switch. cbn [Type_ Payload User Hostname history_request].
    rewrite Himport. change (String.eqb HISTORY HISTORY) with true. cbv iota.
    destruct err; reflexivity. }
  destruct (session cfg e1 e2 (history_request cfg history) db db' _ Henc Hsw)
    as (served & Hserved & Hclosed & Hsend & Hrecv).
  exists served. split; [exact Hserved | split; [exact Hclosed|]].
  unfold ClientMode. rewrite Hop. fold (history_request cfg history). rewrite Hsend.
  rewrite (surjective_pairing (receiveDecrypt _ _)), Hrecv. reflexivity.
Qed.

Lemma import_session_witness :
  let cfg := {| conf_Key := "secret"; conf_Operation := conf.OP_IMPORT;
                conf_User := "alice"; conf_Hostname := "laptop";
                conf_QParams := QueryParams_zero |} in
  exists served db',
    handleConn "secret" "e2"
      (dialled (Reference.wire "secret" "e1" (history_request cfg Sample.three_lines)))
      initDB = Some (served, db', false) /\
    List.length (history db') = 3%nat /\
    ClientMode cfg "e1" (Ok (dialled (outbox served))) (Ok Sample.three_lines) = (None, []).
Proof.
  cbv zeta.
  destruct (import_session Reference.codec ReferenceLaws.laws Reference.no_rows
              {| conf_Key := "secret"; conf_Operation := conf.OP_IMPORT;
                 conf_User := "alice"; conf_Hostname := "laptop";
                 conf_QParams := QueryParams_zero |} "e1" "e2" Sample.three_lines
              "Processed 3 entries, successful 3, failed 0." None initDB _
              eq_refl (fun e p => ex_intro _ _ eq_refl) eq_refl)
    as (served & H1 & _ & H2).
  exists served. eexists. split; [exact H1 | split; [reflexivity | exact H2]].
Defined.

(* ===================================================================== *)
(** * Restore *)

Lemma string_app_assoc (a b c : string) : (a ++ b) ++ c = a ++ b ++ c.
Proof. induction a as [|x a IH]; cbn; [reflexivity | rewrite IH; reflexivity]. Qed.

Lemma TrimSuffix_nl (s : string) : TrimSuffix (s ++ nl) nl = s.
Proof.
  induction s as [|c s IH]; [reflexivity|].
  cbn [append TrimSuffix]. rewrite IH.
  destruct (String.eqb_spec (String c (s ++ nl)) nl) as [Heq|_]; [|reflexivity].
  exfalso. unfold nl in Heq. injection Heq as _ Heq. destruct s; discriminate.
Qed.

Lemma fold_left_append {A : Type} (f : A -> string) (l : list A) (acc : string) :
  fold_left (fun buf x => buf ++ f x) l acc = acc ++ String.concat "" (map f l).
Proof.
  revert acc. induction l as [|x l IH]; intros acc; cbn [fold_left map].
  - cbn. symmetry. apply append_nil_r.
  - rewrite IH, string_app_assoc. f_equal.
    destruct l as [|y l]; [cbn [map String.concat]; apply append_nil_r | reflexivity].
Qed.

Lemma concat_empty_cons (x : string) (l : list string) :
  String.concat "" (x :: l) = x ++ String.concat "" l.
Proof. destruct l; cbn [String.concat]; [symmetry; apply append_nil_r | reflexivity]. Qed.

Lemma join_lines (lines : list string) :
  lines <> [] ->
  String.concat "" (map (fun l => l ++ nl) lines) = String.concat nl lines ++ nl.
Proof.
  induction lines as [|x lines IH]; [congruence|]. intros _.
  destruct lines as [|y lines]; [reflexivity|].
  cbn [map]. rewrite concat_empty_cons. cbn [map] in IH. rewrite IH by discriminate.
  change (String.concat nl (x :: y :: lines))
    with (x ++ nl ++ String.concat nl (y :: lines)).
  rewrite !string_app_assoc. reflexivity.
Qed.

(** the buffer [Restore] builds is the lines of the format, each with its
    newline *)
Lemma restore_buffer (rows : list HistoryRow) :
  String.concat ""
    (map (fun row => Sprintf_restore (h_datetime row) (h_command row)) rows) =
  String.concat "" (map (fun l => l ++ nl) (restore_lines rows)).
Proof.
  induction rows as [|row rows IH]; [reflexivity|].
  change (restore_lines (row :: rows))
    with (("#" ++ fmt_d (Unix (h_datetime row))) :: h_command row :: restore_lines rows).
  cbn [map]. rewrite !concat_empty_cons, IH. unfold Sprintf_restore.
  rewrite !string_app_assoc. reflexivity.
Qed.

Lemma Restore_text (d : Database) (user hostname : string) :
  Restore d user hostname =
  (String.concat nl (restore_lines (select_restore d user hostname)), None).
Proof.
  unfold Restore. cbv zeta. rewrite fold_left_append. cbn [append]. f_equal.
  destruct (select_restore d user hostname) as [|row rows] eqn:Hrows; [reflexivity|].
  rewrite restore_buffer, join_lines by discriminate. apply TrimSuffix_nl.
Qed.




Lemma sqlite_like_plain (escape : option ascii) (pattern : string) :
  plain escape pattern = true ->
  forall value, sqlite_like escape pattern value = LIKE value pattern.
Proof.
  unfold LIKE. induction pattern as [|p pattern IH]; intros Hp value.
  - destruct value; reflexivity.
  - cbn [plain] in Hp. apply andb_true_iff in Hp as [Hp Hrest].
    apply andb_true_iff in Hp as [Hp Hesc]. apply andb_true_iff in Hp as [Hpc Hun].
    apply negb_true_iff in Hpc, Hun, Hesc.
    cbn [sqlite_like]. rewrite Hpc, Hesc, Hun.
    destruct value as [|c value]; [reflexivity|].
    rewrite (IH Hrest). cbn [lowercase String.eqb]. unfold eq_nocase.
    rewrite (Ascii.eqb_sym (lower p)).
    destruct (Ascii.eqb (lower c) (lower p)); reflexivity.
Qed.

(** X24.  Restoring with plain names.  When the user pattern has no [%] and
    no [_], and the host pattern has none either and no backslash, [Restore]
    selects the rows whose user and host are these names up to the case of
    ASCII letters, and no other row. *)
Theorem Restore_plain (d : Database) (user hostname : string) :
  plain None user = true ->
  plain (Some backslash) hostname = true ->
  select_restore d user hostname =
    filter (fun row => LIKE (h_user row) user && LIKE (h_host row) hostname) (history d) /\
  fst (Restore d user hostname) =
    String.concat nl
      (restore_lines
         (filter (fun row => LIKE (h_user row) user && LIKE (h_host row) hostname)
                 (history d))).
Proof.
  intros Hu Hh.
  assert (Hsel : select_restore d user hostname =
                 filter (fun row => LIKE (h_user row) user && LIKE (h_host row) hostname)
                        (history d)).
  { unfold select_restore. apply filter_ext. intros row.
    rewrite (sqlite_like_plain None user Hu), (sqlite_like_plain _ hostname Hh).
    reflexivity. }
  split; [exact Hsel|].
  rewrite Restore_text, Hsel. reflexivity.
Qed.

Lemma Restore_plain_witness :
  plain None "Alice" = true /\ plain (Some backslash) "LAPTOP" = true /\
  fst (Restore (set_history initDB [Sample.ls_row]) "Alice" "LAPTOP") =
  "#1425196800" ++ nl ++ "ls -la".
Proof.
  split; [reflexivity | split; [reflexivity|]].
  exact (proj2 (Restore_plain (set_history initDB [Sample.ls_row]) "Alice" "LAPTOP"
                  eq_refl eq_refl)).
Defined.




(* ===================================================================== *)
(** * What parseLine captures *)

Module RegexpFacts.
Import Regexp.

Lemma length_append (a b : string) :
  String.length (a ++ b) = (String.length a + String.length b)%nat.
Proof. induction a as [|c a IH]; cbn; [reflexivity | rewrite IH; reflexivity]. Qed.

Lemma substring_prefix (pre s : string) :
  substring 0 (String.length pre) (pre ++ s) = pre.
Proof.
  induction pre as [|c pre IH]; cbn [String.length append substring].
  - destruct s; reflexivity.
  - rewrite IH. reflexivity.
Qed.

Lemma consumed_app (pre s : string) : consumed (pre ++ s) s = pre.
Proof.
  unfold consumed. rewrite length_append.
  replace (String.length pre + String.length s - String.length s)%nat
    with (String.length pre) by lia.
  apply substring_prefix.
Qed.

Lemma take_drop (cls : ascii -> bool) (s : string) :
  s = take_while cls s ++ drop_while cls s.
Proof.
  induction s as [|c s IH]; [reflexivity|]. cbn [take_while drop_while].
  destruct (cls c); [cbn [append]; rewrite <- IH|]; reflexivity.
Qed.

Lemma all_of_take_while (cls : ascii -> bool) (s : string) :
  all_of cls (take_while cls s) = true.
Proof.
  induction s as [|c s IH]; [reflexivity|]. cbn [take_while].
  destruct (cls c) eqn:Hc; [cbn [all_of]; rewrite Hc, IH|]; reflexivity.
Qed.

Lemma drop_while_head (cls : ascii -> bool) (s : string) :
  drop_while cls s = "" \/
  exists c s', drop_while cls s = String c s' /\ cls c = false.
Proof.
  induction s as [|c s IH]; [left; reflexivity|]. cbn [drop_while].
  destruct (cls c) eqn:Hc; [exact IH|]. right. exists c, s. split; [reflexivity | exact Hc].
Qed.

Lemma star_inv (cls : ascii -> bool) (k : K) (s : string) (r : list string * string) :
  star cls k s = Some r ->
  exists pre s', s = pre ++ s' /\ all_of cls pre = true /\ k s' = Some r.
Proof.
  induction s as [|c s IH]; cbn [star]; intros H.
  - exists "", "". repeat split. exact H.
  - destruct (cls c) eqn:Hc.
    + destruct (star cls k s) as [r'|] eqn:Hs.
      * injection H as ->. destruct (IH eq_refl) as (pre & s' & -> & Hall & Hk).
        exists (String c pre), s'. cbn [append all_of]. rewrite Hc, Hall. repeat split.
        exact Hk.
      * exists "", (String c s). repeat split. exact H.
    + exists "", (String c s). repeat split. exact H.
Qed.

Lemma plus_inv (cls : ascii -> bool) (k : K) (s : string) (r : list string * string) :
  plus cls k s = Some r ->
  exists pre s', s = pre ++ s' /\ all_of cls pre = true /\ pre <> "" /\ k s' = Some r.
Proof.
  unfold plus. destruct s as [|c s]; [discriminate|].
  destruct (cls c) eqn:Hc; [|discriminate]. intros H.
  destruct (star_inv cls k s r H) as (pre & s' & -> & Hall & Hk).
  exists (String c pre), s'. cbn [append all_of]. rewrite Hc, Hall.
  repeat split; [discriminate | exact Hk].
Qed.

Lemma opt_inv (cls : ascii -> bool) (k : K) (s : string) (r : list string * string) :
  opt cls k s = Some r ->
  exists pre s', s = pre ++ s' /\ all_of cls pre = true /\ k s' = Some r.
Proof.
  unfold opt. destruct s as [|c s]; intros H.
  - exists "", "". repeat split. exact H.
  - destruct (cls c) eqn:Hc.
    + destruct (k s) as [r'|] eqn:Hs.
      * injection H as ->. exists (String c ""), s. cbn [append all_of]. rewrite Hc.
        repeat split. exact Hs.
      * exists "", (String c s). repeat split. exact H.
    + exists "", (String c s). repeat split. exact H.
Qed.

Lemma rep_inv (n : nat) (cls : ascii -> bool) (k : K) :
  forall (s : string) (r : list string * string),
    rep n cls k s = Some r ->
    exists pre s',
      s = pre ++ s' /\ String.length pre = n /\ all_of cls pre = true /\ k s' = Some r.
Proof.
  induction n as [|n IH]; intros s r; cbn [rep]; intros H.
  - exists "", s. repeat split. exact H.
  - destruct s as [|c s]; [discriminate|].
    destruct (cls c) eqn:Hc; [|discriminate].
    destruct (IH s r H) as (pre & s' & -> & Hlen & Hall & Hk).
    exists (String c pre), s'. cbn [append all_of String.length]. rewrite Hc, Hall, Hlen.
    repeat split. exact Hk.
Qed.

(** a greedy star before a continuation that always succeeds takes all it
    can *)
Lemma star_greedy (cls : ascii -> bool) (k : K) (s : string) :
  (forall s', k s' <> None) -> star cls k s = k (drop_while cls s).
Proof.
  intros Htotal. induction s as [|c s IH]; [reflexivity|].
  cbn [star drop_while]. destruct (cls c); [|reflexivity].
  rewrite IH. destruct (k (drop_while cls s)) eqn:Hk; [reflexivity|].
  exfalso. exact (Htotal _ Hk).
Qed.

(** the end of [parseLine]: a capturing group around [.*] *)
Lemma command_group (s : string) :
  group (star dot) accept s = Some ([take_while dot s], drop_while dot s).
Proof.
  unfold group. rewrite star_greedy by (intros s'; discriminate).
  cbn [accept]. rewrite (take_drop dot s) at 1. rewrite consumed_app. reflexivity.
Qed.

Lemma all_of_app (cls : ascii -> bool) (a b : string) :
  all_of cls (a ++ b) = (all_of cls a && all_of cls b)%bool.
Proof.
  induction a as [|c a IH]; [reflexivity|]. cbn [append all_of].
  rewrite IH. apply andb_assoc.
Qed.

Lemma all_of_weaken (cls cls' : ascii -> bool) (s : string) :
  (forall c, cls c = true -> cls' c = true) -> all_of cls s = true -> all_of cls' s = true.
Proof.
  intros Hw. induction s as [|c s IH]; [reflexivity|]. cbn [all_of].
  rewrite !andb_true_iff. intros [Hc Hs]. split; [apply Hw, Hc | apply IH, Hs].
Qed.

(** what a match of [parseLine] is made of *)
Lemma parseLine_match (l : string) (r : list string * string) :
  parseLine accept l = Some r ->
  exists head stampf tail,
    l = head ++ stampf ++ tail /\
    all_of linenum_char head = true /\
    String.length stampf = 24%nat /\ all_of stamp stampf = true /\
    r = ([stampf; take_while dot (drop_while (lit " ") tail)],
         drop_while dot (drop_while (lit " ") tail)).
Proof.
  unfold parseLine. intros H.
  apply star_inv in H as (p1 & s1 & -> & Hp1 & H).
  apply plus_inv in H as (p2 & s2 & -> & Hp2 & _ & H).
  apply opt_inv in H as (p3 & s3 & -> & Hp3 & H).
  apply star_inv in H as (p4 & s4 & -> & Hp4 & H).
  unfold group at 1 in H.
  apply rep_inv in H as (stampf & tail & -> & Hlen & Hstamp & H).
  rewrite star_greedy in H
    by (intros s'; rewrite command_group; discriminate).
  rewrite command_group, consumed_app in H. injection H as <-.
  exists (p1 ++ p2 ++ p3 ++ p4), stampf, tail.
  split; [rewrite !string_app_assoc; reflexivity|].
  split; [|repeat split; assumption].
  rewrite !all_of_app, !andb_true_iff. unfold linenum_char. repeat split.
  - eapply all_of_weaken; [|exact Hp1]. intros c ->. reflexivity.
  - eapply all_of_weaken; [|exact Hp2]. intros c ->. rewrite orb_true_r. reflexivity.
  - eapply all_of_weaken; [|exact Hp3]. intros c ->. rewrite orb_true_r. reflexivity.
  - eapply all_of_weaken; [|exact Hp4]. intros c ->. reflexivity.
Qed.

End RegexpFacts.

Lemma TrimSuffix_no_newline (s : string) :
  all_of Regexp.dot s = true -> TrimSuffix s nl = s.
Proof.
  induction s as [|c s IH]; [reflexivity|]. cbn [all_of TrimSuffix].
  rewrite andb_true_iff. intros [Hc Hs]. rewrite (IH Hs).
  destruct (String.eqb_spec (String c s) nl) as [Heq|_]; [|reflexivity].
  exfalso. injection Heq as -> _. discriminate.
Qed.

Lemma all_of_dot_newlines (s : string) :
  all_of Regexp.dot s = true -> count_newlines s = O.
Proof.
  induction s as [|c s IH]; [reflexivity|]. cbn [all_of count_newlines].
  rewrite andb_true_iff. unfold Regexp.dot at 1. intros [Hc Hs].
  destruct (Ascii.eqb c newline); [discriminate | exact (IH Hs)].
Qed.

(** X26.  What becomes of a line.  When a line stands for a record, the line
    is: a head of spaces, digits and asterisks; the 24 bytes of the
    timestamp, which parse to the datetime of the record; spaces; the command
    of the record; and a rest that is empty or begins with the newline.  So
    the command stored starts after the spaces that follow the timestamp,
    keeps every byte up to the newline, trailing spaces included, has no
    newline in it and does not begin with a space. *)
Theorem record_of_fields (user host l : string) (row : HistoryRow) :
  record_of user host l = Some row ->
  exists head stampf spaces rest,
    l = head ++ stampf ++ spaces ++ h_command row ++ rest /\
    all_of linenum_char head = true /\
    String.length stampf = 24%nat /\
    time_Parse RFC3339alt stampf = Ok (h_datetime row) /\
    all_of (Regexp.lit " ") spaces = true /\
    count_newlines (h_command row) = O /\
    (forall s, h_command row <> String " " s) /\
    (rest = "" \/ exists rest', rest = String newline rest').
Proof.
  unfold record_of, matches, stamp_of, Regexp.FindStringSubmatch.
  destruct (parseLine Regexp.accept l) as [[gs rest0]|] eqn:Hmatch; [|discriminate].
  destruct (RegexpFacts.parseLine_match l _ Hmatch)
    as (head & stampf & tail & Hl & Hhead & Hlen & _ & Hr).
  injection Hr as -> ->. cbn [List.length Nat.eqb nth].
  destruct (time_Parse RFC3339alt stampf) as [time|e] eqn:Hparse; [|discriminate].
  intros [= <-]. cbn [h_command h_datetime].
  set (x := drop_while (Regexp.lit " ") tail).
  assert (Hcmd : all_of Regexp.dot (take_while Regexp.dot x) = true)
    by apply RegexpFacts.all_of_take_while.
  rewrite (TrimSuffix_no_newline _ Hcmd).
  exists head, stampf, (take_while (Regexp.lit " ") tail), (drop_while Regexp.dot x).
  split; [|split; [exact Hhead | split; [exact Hlen | split; [exact Hparse|]]]].
  - rewrite <- (RegexpFacts.take_drop Regexp.dot x). unfold x.
    rewrite <- (RegexpFacts.take_drop (Regexp.lit " ") tail). exact Hl.
  - split; [apply RegexpFacts.all_of_take_while|].
    split; [apply all_of_dot_newlines, Hcmd|]. split.
    + intros s Hs.
      destruct (RegexpFacts.drop_while_head (Regexp.lit " ") tail)
        as [Hx | (c & x' & Hx & Hc)]; fold x in Hx; rewrite Hx in Hs.
      * discriminate.
      * cbn [take_while] in Hs. destruct (Regexp.dot c); [|discriminate].
        injection Hs as -> _. discriminate.
    + destruct (RegexpFacts.drop_while_head Regexp.dot x) as [-> | (c & x' & -> & Hc)];
        [left; reflexivity | right].
      exists x'. f_equal. unfold Regexp.dot in Hc. apply negb_false_iff in Hc.
      apply Ascii.eqb_eq, Hc.
Qed.

Lemma record_of_fields_witness :
  record_of "alice" "laptop" Sample.ls_line = Some Sample.ls_row /\
  exists head stampf spaces rest,
    Sample.ls_line = head ++ stampf ++ spaces ++ "ls -la" ++ rest /\
    String.length stampf = 24%nat /\
    (rest = "" \/ exists rest', rest = String newline rest').
Proof.
  split; [reflexivity|].
  destruct (record_of_fields "alice" "laptop" Sample.ls_line Sample.ls_row eq_refl)
    as (head & stampf & spaces & rest & H1 & _ & H2 & _ & _ & _ & _ & H3).
  exists head, stampf, spaces, rest. repeat split; assumption.
Defined.

(* ===================================================================== *)
(** * A turn of the accept loop *)

(** X27.  A peer that sends nothing [receiveDecrypt] accepts still leaves
    its trace: the turn of the accept loop appends the connection to
    [connlog] (its time being new there), sends no reply, closes the
    connection and leaves the history as it is. *)
Theorem ServerMode_turn_rejected
    (codec : Codec) (db_queries : Queries)
    (key entropy t ip : string) (conn : Conn) (db : Database)
    (rows : list ConnRow) (m : Message) (err : error) :
  snd (receiveDecrypt key conn) = (m, Some err) ->
  connlog db = Some rows ->
  ~ In t (map c_datetime rows) ->
  exists conn' db',
    ServerMode_turn key entropy t ip conn db = Some (conn', db', false) /\
    outbox conn' = outbox conn /\ closed conn' = true /\
    connlog db' =
      Some (rows ++ [{| c_datetime := t; c_remote := ip; c_embedded := None |}])%list /\
    history db' = history db.
Proof.
  intros Hrecv Hc Ht. unfold ServerMode_turn, handleConn.
  destruct (receiveDecrypt_conn key conn) as (Hout & _ & _).
  destruct (receiveDecrypt key conn) as [conn1 [msg [e|]]]; [|discriminate].
  cbn [fst] in Hout. eexists. eexists. split; [reflexivity|].
  cbn [outbox closed conn_Close]. split; [exact Hout | split; [reflexivity|]].
  unfold LogConn. rewrite Hc, (not_in_datetimes t rows Ht). split; reflexivity.
Qed.

Lemma ServerMode_turn_rejected_witness :
  exists conn' db',
    ServerMode_turn "secret" "entropy" "2015-03-01 10:00:00" "203.0.113.5"
      (dialled "junk") initDB = Some (conn', db', false) /\
    outbox conn' = "" /\ closed conn' = true /\
    connlog db' = Some [{| c_datetime := "2015-03-01 10:00:00";
                           c_remote := "203.0.113.5"; c_embedded := None |}].
Proof.
  destruct (ServerMode_turn_rejected Reference.codec Reference.no_rows
              "secret" "entropy" "2015-03-01 10:00:00" "203.0.113.5"
              (dialled "junk") initDB [] Message_zero Reference.malformed
              eq_refl eq_refl (fun H => H))
    as (conn' & db' & H1 & H2 & H3 & H4 & _).
  exists conn', db'. repeat split; assumption.
Defined.
